(** * The job store of server.js: read-modify-write over a GitHub file

    A shallow embedding of the job-posting routes of [src/server.js]
    (GET /api/jobs, POST /api/jobs) with the helpers they call
    ([readJobsFromGithub], [updateGithubJobs], [scrapeAndSummarizeCareerPage],
    [detectSpamJob], [authenticateToken]).

    JavaScript values are an untyped datatype, the remote services (the
    GitHub contents API, the career page, the generative model, the clock)
    are a state that every remote call reads and updates, and thrown
    exceptions are the left summand of a result.  The state also holds what
    the other clients of the file do between two calls, and the properties
    of the global object, where a free identifier is looked up. *)

From Stdlib Require Import List String Ascii Bool ZArith Lia DecimalString.
Import ListNotations.
Local Open Scope string_scope.
Local Open Scope Z_scope.

Set Implicit Arguments.
Set Warnings "-register-all".

(** ** JavaScript values *)

(** Numbers.  [Fin z] is the number whose value is the integer [z]; the ids
    and user ids of the job store are such numbers, and on them (below
    2^53 in magnitude) the arithmetic of the language is exact; beyond, a
    result is the nearest number the language has ([to_double]).  [NaN] and
    the infinities are what [Number], [Math.max] and [JSON.stringify] have
    to tell apart. *)
Inductive JSNumber : Type :=
| Fin (z : Z)
| NaN
| Inf (negative : bool).

Inductive JSValue : Type :=
| JUndefined
| JNull
| JBool (b : bool)
| JNum (n : JSNumber)
| JStr (s : string)
| JArr (items : list JSValue)
| JObj (props : list (string * JSValue)).

(** The value of a JSON text, as [JSON.parse] reads it: an object has one
    entry for each property, in the order [JSON.parse] keeps them, and the
    numbers are the integers the language represents exactly. *)
Inductive Json : Type :=
| JsonNull
| JsonBool (b : bool)
| JsonNum (z : Z)
| JsonStr (s : string)
| JsonArr (items : list Json)
| JsonObj (props : list (string * Json)).

(** Exceptions.  [HttpError status] is the rejection axios produces for a
    response outside 2xx, [NetworkError] the one for no response at all. *)
Inductive JSError : Type :=
| ReferenceError (name : string)
| TypeError (what : string)
| SyntaxError
| HttpError (status : Z)
| NetworkError
| ServiceError (what : string).

Definition Result (A : Type) : Type := (JSError + A)%type.

(** [error.message] *)
Definition error_message (e : JSError) : string :=
  match e with
  | ReferenceError x => x ++ " is not defined"
  | TypeError what => what
  | SyntaxError => "Unexpected token in JSON"
  | HttpError status =>
      "Request failed with status code " ++ NilZero.string_of_int (Z.to_int status)
  | NetworkError => "Network Error"
  | ServiceError what => what
  end.

(** *** Structural recursion through the nested lists *)

Section JsonInduction.
Variable P : Json -> Prop.
Hypothesis Hnull : P JsonNull.
Hypothesis Hbool : forall b, P (JsonBool b).
Hypothesis Hnum : forall z, P (JsonNum z).
Hypothesis Hstr : forall s, P (JsonStr s).
Hypothesis Harr : forall l, Forall P l -> P (JsonArr l).
Hypothesis Hobj : forall l, Forall (fun kv => P (snd kv)) l -> P (JsonObj l).

Fixpoint Json_nested_ind (j : Json) : P j :=
  match j with
  | JsonNull => Hnull
  | JsonBool b => Hbool b
  | JsonNum z => Hnum z
  | JsonStr s => Hstr s
  | JsonArr l =>
      Harr ((fix items (l : list Json) : Forall P l :=
               match l with
               | [] => Forall_nil _
               | x :: r => Forall_cons x (Json_nested_ind x) (items r)
               end) l)
  | JsonObj l =>
      Hobj ((fix props (l : list (string * Json))
               : Forall (fun kv => P (snd kv)) l :=
               match l with
               | [] => Forall_nil _
               | kv :: r =>
                   Forall_cons kv (Json_nested_ind (snd kv)) (props r)
               end) l)
  end.
End JsonInduction.

(** ** JSON.parse and JSON.stringify on parsed texts *)

(** The value [JSON.parse] builds from a well-formed text. *)
Fixpoint of_json (j : Json) : JSValue :=
  match j with
  | JsonNull => JNull
  | JsonBool b => JBool b
  | JsonNum z => JNum (Fin z)
  | JsonStr s => JStr s
  | JsonArr l => JArr (map of_json l)
  | JsonObj l => JObj (map (fun kv => (fst kv, of_json (snd kv))) l)
  end.

(** The text [JSON.stringify] writes, [None] where it returns [undefined].
    Inside an array [undefined] is written as [null]; a property whose
    value is [undefined] is left out; [NaN] and the infinities are written
    as [null]. *)
Fixpoint to_json (v : JSValue) : option Json :=
  match v with
  | JUndefined => None
  | JNull => Some JsonNull
  | JBool b => Some (JsonBool b)
  | JNum (Fin z) => Some (JsonNum z)
  | JNum _ => Some JsonNull
  | JStr s => Some (JsonStr s)
  | JArr l =>
      Some (JsonArr (map (fun x => match to_json x with
                                   | Some j => j
                                   | None => JsonNull
                                   end) l))
  | JObj l =>
      Some (JsonObj (flat_map (fun kv => match to_json (snd kv) with
                                         | Some j => [(fst kv, j)]
                                         | None => []
                                         end) l))
  end.

(** An array element as [JSON.stringify] writes it. *)
Definition json_element (v : JSValue) : Json :=
  match to_json v with
  | Some j => j
  | None => JsonNull
  end.

(** ** Coercions and operators *)

(** Truthiness, as [if (v)], [!v] and [a || b] test it. *)
Definition truthy (v : JSValue) : bool :=
  match v with
  | JUndefined | JNull => false
  | JBool b => b
  | JNum (Fin z) => negb (z =? 0)
  | JNum NaN => false
  | JNum (Inf _) => true
  | JStr s => negb (s =? "")%string
  | JArr _ | JObj _ => true
  end.

(** [a || b] *)
Definition js_or (a b : JSValue) : JSValue := if truthy a then a else b.

(** The number nearest to an integer: the integer itself up to 2^53 in
    magnitude, and beyond that the nearest multiple of the spacing of the
    numbers there (53 significant bits), the even one of two that are
    equally near, and an infinity from 2^1024 on. *)
Definition to_double (z : Z) : JSNumber :=
  let a := Z.abs z in
  if a <=? 2 ^ 53 then Fin z
  else
    let ulp := 2 ^ (Z.log2 a - 52) in
    let q := a / ulp in
    let r := a mod ulp in
    let half := ulp / 2 in
    let q' := if r <? half then q
              else if half <? r then q + 1
              else if Z.even q then q else q + 1 in
    if 2 ^ 1024 <=? q' * ulp then Inf (z <? 0)
    else Fin (Z.sgn z * (q' * ulp)).

(** The decimal digits of an integer. *)
Definition decimal (a : Z) : string := NilZero.string_of_int (Z.to_int a).

(** [v] is read back as the number [a]. *)
Definition round_trips (a v : Z) : bool :=
  match to_double v with
  | Fin x => x =? a
  | _ => false
  end.

(** The integer with [k] significant digits that is read back as [a], the
    nearest to [a] if there are two, [None] if there is none. *)
Definition shortest_at (a : Z) (k : Z) : option Z :=
  let p := 10 ^ (Z.of_nat (String.length (decimal a)) - k) in
  let lo := a / p * p in
  let hi := lo + p in
  match round_trips a lo, round_trips a hi with
  | true, true =>
      Some (if a - lo <? hi - a then lo
            else if hi - a <? a - lo then hi
            else if Z.even (a / p) then lo else hi)
  | true, false => Some lo
  | false, true => Some hi
  | false, false => None
  end.

Fixpoint shortest_from (a : Z) (ks : list Z) : Z :=
  match ks with
  | [] => a
  | k :: r =>
      match shortest_at a k with
      | Some v => v
      | None => shortest_from a r
      end
  end.

(** The integer with the fewest significant digits that is read back as
    the number [a] (17 digits always do); below 2^53 it is [a] itself. *)
Definition shortest (a : Z) : Z :=
  if a <=? 2 ^ 53 then a else shortest_from a (map Z.of_nat (seq 1 17)).

Fixpoint strip_zeros (s : string) : string :=
  match s with
  | EmptyString => EmptyString
  | String c r =>
      let r' := strip_zeros r in
      if (Ascii.eqb c "0" && (r' =? ""))%bool%string then EmptyString
      else String c r'
  end.

(** [String(n)] on the numbers of the model: the fewest digits that give
    the number back, written out in full up to 21 digits and with an exponent
    beyond ([String(2**60)] is "1152921504606847000", [String(1e21)] is
    "1e+21"). *)
Definition number_to_string (n : JSNumber) : string :=
  match n with
  | Fin z =>
      let text := decimal (shortest (Z.abs z)) in
      let sign := if z <? 0 then "-" else "" in
      if (String.length text <=? 21)%nat then sign ++ text
      else
        sign
        ++ match strip_zeros text with
           | String c EmptyString => String c EmptyString
           | String c r => String c ("." ++ r)
           | EmptyString => EmptyString
           end
        ++ "e+" ++ decimal (Z.of_nat (String.length text) - 1)
  | NaN => "NaN"
  | Inf false => "Infinity"
  | Inf true => "-Infinity"
  end.

(** The text [String(v)] returns.  An array is joined with commas, its
    [null] and [undefined] elements as empty strings.  ([js_ToString] below
    has the one case where the conversion throws instead.) *)
Fixpoint js_String (v : JSValue) : string :=
  match v with
  | JUndefined => "undefined"
  | JNull => "null"
  | JBool true => "true"
  | JBool false => "false"
  | JNum n => number_to_string n
  | JStr s => s
  | JArr l =>
      String.concat ","
        (map (fun x => match x with
                       | JUndefined | JNull => ""
                       | _ => js_String x
                       end) l)
  | JObj _ => "[object Object]"
  end.

Definition num_max (a b : JSNumber) : JSNumber :=
  match a, b with
  | NaN, _ | _, NaN => NaN
  | Inf false, _ | _, Inf false => Inf false
  | Inf true, x | x, Inf true => x
  | Fin x, Fin y => Fin (Z.max x y)
  end.

Definition num_add (a b : JSNumber) : JSNumber :=
  match a, b with
  | NaN, _ | _, NaN => NaN
  | Inf s, Inf t => if Bool.eqb s t then Inf s else NaN
  | Inf s, Fin _ | Fin _, Inf s => Inf s
  | Fin x, Fin y => to_double (x + y)
  end.

(** [a > b] on numbers; any comparison with [NaN] is false. *)
Definition num_gt (a b : JSNumber) : bool :=
  match a, b with
  | NaN, _ | _, NaN => false
  | Inf s, Inf t => negb s && t
  | Inf s, Fin _ => negb s
  | Fin _, Inf t => t
  | Fin x, Fin y => y <? x
  end.

(** Property lookup in an object literal: the first binding of the name. *)
Fixpoint assoc (A : Type) (k : string) (l : list (string * A)) : option A :=
  match l with
  | [] => None
  | (k', v) :: r => if (k =? k')%string then Some v else assoc k r
  end.

(** [v.name] for the names the routes read ([length], [id], [userId],
    [username]); reading a property of [null] or [undefined] throws. *)
Definition get_prop (v : JSValue) (name : string) : Result JSValue :=
  match v with
  | JUndefined =>
      inl (TypeError ("Cannot read properties of undefined (reading '" ++ name ++ "')"))
  | JNull =>
      inl (TypeError ("Cannot read properties of null (reading '" ++ name ++ "')"))
  | JObj props =>
      inr (match assoc name props with Some x => x | None => JUndefined end)
  | JArr l =>
      inr (if (name =? "length")%string then JNum (Fin (Z.of_nat (List.length l)))
           else JUndefined)
  | JStr s =>
      inr (if (name =? "length")%string then JNum (Fin (Z.of_nat (String.length s)))
           else JUndefined)
  | JBool _ | JNum _ => inr JUndefined
  end.

(** A property of [req.body] or [req.query] picked by destructuring. *)
Definition field (name : string) (props : list (string * JSValue)) : JSValue :=
  match assoc name props with
  | Some v => v
  | None => JUndefined
  end.

(** [String(v)] with its exception.  The conversion of an object calls its
    [toString]; an object read from a JSON text or from a query string that
    has a [toString] property of its own has no function there (nor does the
    inherited [valueOf] give a primitive), and the conversion throws a
    TypeError.  The elements of an array are converted in turn. *)
Fixpoint js_ToString (v : JSValue) : Result string :=
  match v with
  | JArr l =>
      match
        (fix elements (l : list JSValue) : Result (list string) :=
           match l with
           | [] => inr []
           | x :: r =>
               match
                 match x with
                 | JUndefined | JNull => inr ""
                 | _ => js_ToString x
                 end
               with
               | inl e => inl e
               | inr s =>
                   match elements r with
                   | inl e => inl e
                   | inr ss => inr (s :: ss)
                   end
               end
           end) l
      with
      | inl e => inl e
      | inr parts => inr (String.concat "," parts)
      end
  | JObj props =>
      match assoc "toString" props with
      | Some _ => inl (TypeError "Cannot convert object to primitive value")
      | None => inr "[object Object]"
      end
  | _ => inr (js_String v)
  end.

(** [String(v)] returns. *)
Definition convertible (v : JSValue) : bool :=
  match js_ToString v with
  | inr _ => true
  | inl _ => false
  end.

(** *** Strings *)

(** [s.split(' ')] *)
Fixpoint split_space (s : string) : list string :=
  match s with
  | EmptyString => [EmptyString]
  | String c r =>
      if Ascii.eqb c " " then EmptyString :: split_space r
      else match split_space r with
           | [] => [String c EmptyString]
           | h :: t => String c h :: t
           end
  end.

Definition is_space (c : ascii) : bool :=
  let n := nat_of_ascii c in
  (Nat.eqb n 32 || (Nat.leb 9 n && Nat.leb n 13))%bool.

Fixpoint trim_start (s : string) : string :=
  match s with
  | EmptyString => EmptyString
  | String c r => if is_space c then trim_start r else s
  end.

Fixpoint trim_end (s : string) : string :=
  match s with
  | EmptyString => EmptyString
  | String c r =>
      let r' := trim_end r in
      if (is_space c && (r' =? ""))%bool%string then EmptyString else String c r'
  end.

(** [s.trim()], on the ASCII white space *)
Definition trim (s : string) : string := trim_end (trim_start s).

Definition lower_ascii (c : ascii) : ascii :=
  let n := nat_of_ascii c in
  if (Nat.leb 65 n && Nat.leb n 90)%bool then ascii_of_nat (n + 32) else c.

(** [s.toLowerCase()], on the ASCII letters *)
Fixpoint toLowerCase (s : string) : string :=
  match s with
  | EmptyString => EmptyString
  | String c r => String (lower_ascii c) (toLowerCase r)
  end.

(** [s.startsWith(p)] *)
Definition startsWith (s p : string) : bool := String.prefix p s.

(** ** The remote services *)

(** The content of data/jobs.json: a well-formed JSON text, given by the
    value it parses to, or a text [JSON.parse] rejects. *)
Inductive Blob : Type :=
| WellFormed (j : Json)
| Malformed (raw : string).

(** [JSON.parse(content)] *)
Definition JSON_parse (b : Blob) : Result JSValue :=
  match b with
  | WellFormed j => inr (of_json j)
  | Malformed _ => inl SyntaxError
  end.

(** [Buffer.from(JSON.stringify(jobs, null, 2)).toString('base64')];
    [Buffer.from(undefined)] throws. *)
Definition encode_jobs (jobs : JSValue) : Result Blob :=
  match to_json jobs with
  | Some j => inr (WellFormed j)
  | None => inl (TypeError "The first argument must be of type string or an instance of Buffer")
  end.

Definition Sha : Type := string.

(** What the rest of the world does at one call to the GitHub contents API:
    another client may have committed a new content just before the call is
    served, and the call may fail (time-out, 5xx, no network). *)
Record GithubTick : Type := {
  others : option Blob;
  fault : option JSError
}.

Definition quiet : GithubTick := {| others := None; fault := None |}.

Inductive Prompt : Type :=
| SummaryPrompt (text : string)
| SpamPrompt (details : option Json).

(** The remote calls a request handler has made, oldest first. *)
Inductive Event : Type :=
| EvGithubGet (reply : Result (Blob * Sha))
| EvGithubPut (content : Blob) (sha : Sha) (reply : Result unit)
| EvPageGet (url : string) (reply : Result string)
| EvGenerate (prompt : Prompt) (reply : Result string).

Record World : Type := {
  w_global : list (string * JSValue);  (* properties of the global object *)
  w_file : option Blob;                (* data/jobs.json, [None]: no such file *)
  w_github : list GithubTick;          (* the coming calls to GitHub *)
  w_pages : list (Result string);      (* the coming career-page fetches *)
  w_model : list (Result string);      (* the coming generateContent calls *)
  w_clock : list string;               (* the coming readings of the clock *)
  w_log : list Event
}.

(** *** Exceptions over a state *)

Definition M (A : Type) : Type := World -> Result A * World.

Definition ret (A : Type) (a : A) : M A := fun w => (inr a, w).

Definition throw (A : Type) (e : JSError) : M A := fun w => (inl e, w).
Arguments throw {A} e.

Definition bind (A B : Type) (m : M A) (k : A -> M B) : M B :=
  fun w =>
    match m w with
    | (inr a, w') => k a w'
    | (inl e, w') => (inl e, w')
    end.

(** [try { m } catch (error) { h error }] *)
Definition try_catch (A : Type) (m : M A) (h : JSError -> M A) : M A :=
  fun w =>
    match m w with
    | (inr a, w') => (inr a, w')
    | (inl e, w') => h e w'
    end.

(** A computation without remote calls. *)
Definition lift (A : Type) (r : Result A) : M A := fun w => (r, w).

Notation "x <- c ;; k" := (bind c (fun x => k))
  (at level 61, c at next level, right associativity).

Notation "'let?' x := c 'in' k" :=
  (match c with inr x => k | inl e => inl e end)
  (at level 61, x name, c at next level, right associativity).

Definition log_event (ev : Event) (w : World) : World :=
  {| w_global := w_global w; w_file := w_file w; w_github := w_github w;
     w_pages := w_pages w; w_model := w_model w; w_clock := w_clock w;
     w_log := w_log w ++ [ev] |}.

Definition set_github (file : option Blob) (ticks : list GithubTick) (w : World) : World :=
  {| w_global := w_global w; w_file := file; w_github := ticks;
     w_pages := w_pages w; w_model := w_model w; w_clock := w_clock w;
     w_log := w_log w |}.

Definition set_pages (pages : list (Result string)) (w : World) : World :=
  {| w_global := w_global w; w_file := w_file w; w_github := w_github w;
     w_pages := pages; w_model := w_model w; w_clock := w_clock w;
     w_log := w_log w |}.

Definition set_model (model : list (Result string)) (w : World) : World :=
  {| w_global := w_global w; w_file := w_file w; w_github := w_github w;
     w_pages := w_pages w; w_model := model; w_clock := w_clock w;
     w_log := w_log w |}.

Definition set_clock (clock : list string) (w : World) : World :=
  {| w_global := w_global w; w_file := w_file w; w_github := w_github w;
     w_pages := w_pages w; w_model := w_model w; w_clock := clock;
     w_log := w_log w |}.

(** The tick of the next call to GitHub; once the list is used up nothing
    interferes any more. *)
Definition next_tick (w : World) : GithubTick := hd quiet (w_github w).

(** The file once the other clients' commit of this tick has landed. *)
Definition after_others (t : GithubTick) (file : option Blob) : option Blob :=
  match others t with
  | Some b => Some b
  | None => file
  end.

Section Server.

(** The version token GitHub reports for a content (its git blob hash). *)
Variable blob_sha : Blob -> Sha.

(** [jwt.verify(token, secret)]: the decoded payload of a token that
    verifies. *)
Variable jwt_verify : string -> option JSValue.

(** The numeric value of a string, as [Number(s)] computes it. *)
Variable StringToNumber : string -> JSNumber.

(** *** The GitHub contents API for data/jobs.json

    The API is a collaborator outside the repository.  It is taken as the
    design document describes its RemoteFileBackend: a GET gives the content
    with its version token, a PUT is accepted only with the token of the
    content it replaces. *)

(** The answer to GET .../contents/data/jobs.json when the file is [file]:
    the content and its sha, 404 when the file does not exist. *)
Definition get_reply (t : GithubTick) (file : option Blob) : Result (Blob * Sha) :=
  match fault t with
  | Some e => inl e
  | None =>
      match file with
      | Some b => inr (b, blob_sha b)
      | None => inl (HttpError 404)
      end
  end.

(** The answer to PUT .../contents/data/jobs.json with
    [{message, content, sha}] and the file afterwards: the content replaces
    the file when [sha] is the sha of the file as it is now, and the call is
    rejected with 409 otherwise.  A rejected or failed call leaves the file
    as it was.  (The case of a file that does not exist is not reached: the
    sha comes from a GET that found the file, and no client deletes it.) *)
Definition put_outcome (t : GithubTick) (file : option Blob) (content : Blob)
    (sha : Sha) : Result unit * option Blob :=
  match fault t with
  | Some e => (inl e, file)
  | None =>
      match file with
      | Some b =>
          if (sha =? blob_sha b)%string then (inr tt, Some content)
          else (inl (HttpError 409), file)
      | None => (inl (HttpError 404), file)
      end
  end.

(** [axios.get] on the contents API *)
Definition github_get : M (Blob * Sha) := fun w =>
  let t := next_tick w in
  let file := after_others t (w_file w) in
  let reply := get_reply t file in
  (reply, log_event (EvGithubGet reply) (set_github file (tl (w_github w)) w)).

(** [axios.put] on the contents API *)
Definition github_put (content : Blob) (sha : Sha) : M unit := fun w =>
  let t := next_tick w in
  let outcome := put_outcome t (after_others t (w_file w)) content sha in
  (fst outcome,
   log_event (EvGithubPut content sha (fst outcome))
     (set_github (snd outcome) (tl (w_github w)) w)).

(** *** The other services *)

(** [axios.get(url)] on a career page followed by the text extraction of
    lines 36-53: the reply is the cleaned text of the page. *)
Definition page_get (url : string) : M string := fun w =>
  let reply := hd (inl NetworkError) (w_pages w) in
  (reply, log_event (EvPageGet url reply) (set_pages (tl (w_pages w)) w)).

(** [model.generateContent(prompt)] followed by [result.response.text()] *)
Definition generateContent (prompt : Prompt) : M string := fun w =>
  let reply := hd (inl (ServiceError "generateContent failed")) (w_model w) in
  (reply, log_event (EvGenerate prompt reply) (set_model (tl (w_model w)) w)).

(** [new Date().toISOString()] *)
Definition date_now : M string := fun w =>
  (inr (hd "1970-01-01T00:00:00.000Z" (w_clock w)), set_clock (tl (w_clock w)) w).

(** An identifier no enclosing scope of the file declares: a property of
    the global object, or a ReferenceError. *)
Definition free_variable (x : string) : M JSValue := fun w =>
  match assoc x (w_global w) with
  | Some v => (inr v, w)
  | None => (inl (ReferenceError x), w)
  end.

(** *** Lines 18-111: enrichment *)

(** [scrapeAndSummarizeCareerPage(url)] *)
Definition scrapeAndSummarizeCareerPage (url : JSValue) : M JSValue :=
  try_catch
    (if negb (truthy url) then ret JNull
     else
       match url with
       | JStr s =>
           if negb (startsWith s "http") then ret JNull
           else
             cleanedText <- page_get s ;;
             if (negb (truthy (JStr cleanedText))
                 || (Z.of_nat (String.length cleanedText) <? 50))%bool
             then ret JNull
             else
               summary <- generateContent (SummaryPrompt (substring 0 5000 cleanedText)) ;;
               if negb (truthy (JStr summary)) then ret JNull
               else ret (JStr summary)
       | _ => throw (TypeError "url.startsWith is not a function")
       end)
    (fun error => ret JNull).

(** [detectSpamJob(jobDetails)] *)
Definition detectSpamJob (jobDetails : JSValue) : M JSValue :=
  try_catch
    (text <- generateContent (SpamPrompt (to_json jobDetails)) ;;
     ret (JBool (toLowerCase (trim text) =? "true")%string))
    (fun error => ret (JBool false)).

(** *** Lines 114-179: the job file *)

(** [readJobsFromGithub()] *)
Definition readJobsFromGithub : M JSValue :=
  try_catch
    (response <- github_get ;;
     lift (JSON_parse (fst response)))
    (fun error => ret (JArr [])).

(** [updateGithubJobs(jobs)] *)
Definition updateGithubJobs (jobs : JSValue) : M JSValue :=
  try_catch
    (currentFile <- github_get ;;
     updatedContent <- lift (encode_jobs jobs) ;;
     _ <- github_put updatedContent (snd currentFile) ;;
     ret (JBool true))
    (fun error => throw error).

(** *** Requests, responses and the middleware *)

Record Request : Type := {
  req_authorization : option string;     (* req.headers['authorization'] *)
  req_body : list (string * JSValue);    (* req.body *)
  req_query : list (string * JSValue)    (* req.query *)
}.

(** The status and the value handed to [res.json] (or the text of
    [res.sendStatus]). *)
Record Response : Type := {
  res_status : Z;
  res_body : JSValue
}.

Definition respond (status : Z) (body : JSValue) : Response :=
  {| res_status := status; res_body := body |}.

(** [authHeader && authHeader.split(' ')[1]], [None] for [undefined] *)
Definition bearer_token (req : Request) : option string :=
  match req_authorization req with
  | None => None
  | Some authHeader =>
      if (authHeader =? "")%string then Some ""
      else nth_error (split_space authHeader) 1
  end.

(** [authenticateToken(req, res, next)]; [next] receives [req.user]. *)
Definition authenticateToken (req : Request) (next : JSValue -> M Response) : M Response :=
  match bearer_token req with
  | None => ret (respond 401 (JStr "Unauthorized"))
  | Some token =>
      if negb (truthy (JStr token)) then ret (respond 401 (JStr "Unauthorized"))
      else
        match jwt_verify token with
        | None => ret (respond 403 (JStr "Forbidden"))
        | Some user => next user
        end
  end.

(** *** Arrays *)

Fixpoint map_result (A B : Type) (f : A -> Result B) (l : list A) : Result (list B) :=
  match l with
  | [] => inr []
  | x :: r =>
      let? y := f x in
      let? ys := map_result f r in
      inr (y :: ys)
  end.

Fixpoint filter_result (A : Type) (f : A -> Result bool) (l : list A) : Result (list A) :=
  match l with
  | [] => inr []
  | x :: r =>
      let? keep := f x in
      let? ys := filter_result f r in
      inr (if keep then x :: ys else ys)
  end.

Definition not_a_function (A : Type) (what : string) : Result A :=
  inl (TypeError (what ++ " is not a function")).
Arguments not_a_function {A} what.

(** [jobs.map(f)] *)
Definition array_map (jobs : JSValue) (f : JSValue -> Result JSValue) : Result (list JSValue) :=
  match jobs with
  | JArr l => map_result f l
  | JUndefined | JNull => let? m := get_prop jobs "map" in not_a_function "jobs.map"
  | _ => not_a_function "jobs.map"
  end.

(** [jobs.filter(f)] *)
Definition array_filter (jobs : JSValue) (f : JSValue -> Result bool) : Result (list JSValue) :=
  match jobs with
  | JArr l => filter_result f l
  | JUndefined | JNull => let? m := get_prop jobs "filter" in not_a_function "jobs.filter"
  | _ => not_a_function "jobs.filter"
  end.

(** [jobs.push(x)], giving the array after the push *)
Definition array_push (jobs : JSValue) (x : JSValue) : Result JSValue :=
  match jobs with
  | JArr l => inr (JArr (l ++ [x]))
  | JUndefined | JNull => let? m := get_prop jobs "push" in not_a_function "jobs.push"
  | _ => not_a_function "jobs.push"
  end.

(** [Number(v)] *)
Definition ToNumber (v : JSValue) : JSNumber :=
  match v with
  | JUndefined => NaN
  | JNull => Fin 0
  | JBool true => Fin 1
  | JBool false => Fin 0
  | JNum n => n
  | JStr s => StringToNumber s
  | JArr _ | JObj _ => StringToNumber (js_String v)
  end.

(** [Math.max(...args)] *)
Definition Math_max (args : list JSValue) : JSNumber :=
  fold_left (fun acc x => num_max acc (ToNumber x)) args (Inf true).

(** *** Lines 273-290 and 395-412: GET /api/jobs *)

(** The callback of [jobs.filter]: [String(job.userId) === String(userId)] *)
Definition same_user (userId job : JSValue) : Result bool :=
  let? owner := get_prop job "userId" in
  let? a := js_ToString owner in
  let? b := js_ToString userId in
  inr (a =? b)%string.

(** The handler both registrations of GET /api/jobs share. *)
Definition get_jobs (req : Request) : M Response :=
  try_catch
    (jobs <- readJobsFromGithub ;;
     let userId := field "userId" (req_query req) in
     if truthy userId then
       userJobs <- lift (array_filter jobs (same_user userId)) ;;
       ret (respond 200 (JArr userJobs))
     else
       ret (respond 200 jobs))
    (fun error =>
       ret (respond 500 (JObj [("error", JStr "Failed to fetch jobs")]))).

(** Line 274: the first registration, without middleware. *)
Definition get_jobs_route (req : Request) : M Response := get_jobs req.

(** Line 396: the second registration, behind [authenticateToken]. *)
Definition get_jobs_route_authenticated (req : Request) : M Response :=
  authenticateToken req (fun user => get_jobs req).

(** *** Lines 292-381: POST /api/jobs *)

(** The names the handler and the module declare. *)
Definition handler_bindings : list string :=
  ["req"; "res"; "title"; "description"; "companyName"; "location"; "domain";
   "workType"; "employmentType"; "userType"; "salaryRange"; "applyLink";
   "userId"; "createdBy"; "companySummary"; "isSpam"; "jobs"; "newJob"].

Definition module_bindings : list string :=
  ["express"; "cors"; "jwt"; "axios"; "session"; "FileStore";
   "GoogleGenerativeAI"; "puppeteer"; "cheerio"; "app"; "port"; "genAI";
   "scrapeAndSummarizeCareerPage"; "detectSpamJob"; "readJobsFromGithub";
   "updateGithubJobs"; "authenticateToken"].

Definition declared (x : string) : bool :=
  existsb (String.eqb x) (handler_bindings ++ module_bindings).

(** Line 343: [jobs.length > 0 ? Math.max(...jobs.map(job => job.id)) + 1 : 1] *)
Definition new_job_id (jobs : JSValue) : Result JSValue :=
  let? len := get_prop jobs "length" in
  if num_gt (ToNumber len) (Fin 0) then
    let? ids := array_map jobs (fun job => get_prop job "id") in
    inr (JNum (num_add (Math_max ids) (Fin 1)))
  else inr (JNum (Fin 1)).

(** Lines 342-361: the object literal of [newJob], once its parts are
    evaluated. *)
Definition job_literal (body : list (string * JSValue))
    (id careerLink companySummary isSpam userId createdBy : JSValue)
    (createdAt updatedAt : string) : JSValue :=
  JObj [("id", id); ("title", field "title" body);
        ("description", field "description" body);
        ("companyName", field "companyName" body);
        ("location", field "location" body);
        ("domain", field "domain" body);
        ("workType", field "workType" body);
        ("employmentType", field "employmentType" body);
        ("userType", field "userType" body);
        ("salaryRange", field "salaryRange" body);
        ("applyLink", field "applyLink" body);
        ("careerLink", careerLink);
        ("companySummary", js_or companySummary JNull);
        ("isSpam", isSpam); ("userId", userId);
        ("createdBy", createdBy); ("createdAt", JStr createdAt);
        ("updatedAt", JStr updatedAt)].

(** The argument of [detectSpamJob] at line 331. *)
Definition spam_details (body : list (string * JSValue)) : JSValue :=
  JObj [("title", field "title" body); ("description", field "description" body);
        ("companyName", field "companyName" body);
        ("salaryRange", field "salaryRange" body)].

(** Line 310: [!title || !description || !companyName] *)
Definition fields_missing (body : list (string * JSValue)) : bool :=
  (negb (truthy (field "title" body)) || negb (truthy (field "description" body))
   || negb (truthy (field "companyName" body)))%bool.

(** [a || o.name], the property being read only when [a] is falsy *)
Definition or_prop (a o : JSValue) (name : string) : Result JSValue :=
  if truthy a then inr a else get_prop o name.

(** The handler of POST /api/jobs; [user] is [req.user], set by the
    middleware.  [careerLink] is not among its bindings ([declared]): both
    occurrences, lines 320-322 and 354, are free. *)
Definition post_jobs (req : Request) (user : JSValue) : M Response :=
  try_catch
    (let body := req_body req in
     let userId := field "userId" body in
     let createdBy := field "createdBy" body in
     if fields_missing body then
       ret (respond 400
              (JObj [("error",
                      JStr "Required fields missing. Title, description, and company name are required.")]))
     else
       careerLink <- free_variable "careerLink" ;;
       companySummary <-
         (if truthy careerLink then scrapeAndSummarizeCareerPage careerLink
          else ret JNull) ;;
       isSpam <- detectSpamJob (spam_details body) ;;
       jobs <- readJobsFromGithub ;;
       id <- lift (new_job_id jobs) ;;
       careerLink' <- free_variable "careerLink" ;;
       userId' <- lift (or_prop userId user "userId") ;;
       createdBy' <- lift (or_prop createdBy user "username") ;;
       createdAt <- date_now ;;
       updatedAt <- date_now ;;
       let newJob :=
         job_literal body id careerLink' companySummary isSpam userId' createdBy'
           createdAt updatedAt in
       jobs' <- lift (array_push jobs newJob) ;;
       _ <- updateGithubJobs jobs' ;;
       ret (respond 201
              (JObj [("message", JStr "Job created successfully");
                     ("job", newJob)])))
    (fun error =>
       ret (respond 500
              (JObj [("error", JStr "Failed to create job");
                     ("details", JStr (error_message error))]))).

(** Line 292: the route, behind [authenticateToken]. *)
Definition post_jobs_route (req : Request) : M Response :=
  authenticateToken req (post_jobs req).

End Server.

(** ** Observations on a run *)

Definition is_github (ev : Event) : bool :=
  match ev with
  | EvGithubGet _ | EvGithubPut _ _ _ => true
  | EvPageGet _ _ | EvGenerate _ _ => false
  end.

(** The calls to the GitHub contents API among some events. *)
Definition github_events (evs : list Event) : list Event := filter is_github evs.

Definition is_put (ev : Event) : bool :=
  match ev with
  | EvGithubPut _ _ _ => true
  | _ => false
  end.

(** The Records a file holds. *)
Definition records_of (file : option Blob) : list Json :=
  match file with
  | Some (WellFormed (JsonArr l)) => l
  | _ => []
  end.

(** The Records committed in data/jobs.json. *)
Definition stored_records (w : World) : list Json := records_of (w_file w).

(** What [readJobsFromGithub] makes of the reply to its GET. *)
Definition jobs_read (reply : Result (Blob * Sha)) : JSValue :=
  match reply with
  | inr (WellFormed j, _) => of_json j
  | _ => JArr []
  end.

(** The sha the first GET among some events returned, [None] when there is
    no GET or when the first one was not answered. *)
Fixpoint first_read_token (evs : list Event) : option Sha :=
  match evs with
  | [] => None
  | EvGithubGet reply :: r =>
      match reply with
      | inr (_, sha) => Some sha
      | inl _ => None
      end
  | _ :: r => first_read_token r
  end.

Definition is_object (v : JSValue) : bool :=
  match v with
  | JObj _ => true
  | _ => false
  end.

(** [job.name] of an object, without the exception. *)
Definition prop_of (job : JSValue) (name : string) : JSValue :=
  match job with
  | JObj props => field name props
  | _ => JUndefined
  end.

(** [String(job.userId) === String(userId)], both conversions returning *)
Definition owned_by (userId job : JSValue) : bool :=
  match js_ToString (prop_of job "userId"), js_ToString userId with
  | inr a, inr b => (a =? b)%string
  | _, _ => false
  end.

(** The id of a Record when it is an integer. *)
Definition integer_id (job : JSValue) : option Z :=
  match prop_of job "id" with
  | JNum (Fin z) => Some z
  | _ => None
  end.

(** [m] is the greatest element of [l]. *)
Definition greatest (m : Z) (l : list Z) : Prop :=
  In m l /\ Forall (fun i => i <= m) l.

(** The integers every operation of the language keeps exact. *)
Definition safe_integer (z : Z) : Prop := - 2 ^ 53 < z < 2 ^ 53.

(** A required field that is missing or empty. *)
Definition missing_or_empty (name : string) (body : list (string * JSValue)) : Prop :=
  field name body = JUndefined \/ field name body = JStr "".

Definition failed (A : Type) (r : Result A) : Prop :=
  match r with
  | inl _ => True
  | inr _ => False
  end.

(** The body of the 500 response of POST /api/jobs. *)
Definition create_failure (e : JSError) : JSValue :=
  JObj [("error", JStr "Failed to create job");
        ("details", JStr (error_message e))].

(** The body of the 201 response. *)
Definition created (newJob : JSValue) : JSValue :=
  JObj [("message", JStr "Job created successfully"); ("job", newJob)].

(** One of the conversions of [String(job.userId) === String(userId)]
    throws while [jobs] is filtered. *)
Definition filter_throws (userId : JSValue) (jobs : list JSValue) : bool :=
  existsb (fun job => negb (convertible (prop_of job "userId"))
                      || negb (convertible userId))%bool jobs.

(** The append answered [resp], which read the Records [old] with the ids
    [ids] and left the world [w'], gave its Record the greatest of these ids
    plus 1 (1 when there is none); the file holds the Records read followed
    by that Record, and ids that were unique are unique still. *)
Definition next_id_assigned (resp : Response) (w' : World) (old : list Json)
    (ids : list Z) : Prop :=
  exists newJob n,
    res_body resp = created newJob
    /\ prop_of newJob "id" = JNum (Fin n)
    /\ (ids = [] -> n = 1)
    /\ (ids <> [] -> greatest (n - 1) ids)
    /\ stored_records w' = (old ++ [json_element newJob])%list
    /\ map integer_id (map of_json (stored_records w')) = map Some (ids ++ [n])%list
    /\ (NoDup ids -> NoDup (ids ++ [n])%list).

(** A step that calls no GitHub endpoint: the global object, the file, the
    coming ticks and the clock are as before, and the log grew by calls to
    other services only. *)
Definition no_github_step (w w1 : World) : Prop :=
  w_global w1 = w_global w /\ w_file w1 = w_file w /\
  w_github w1 = w_github w /\ w_clock w1 = w_clock w /\
  exists evs, w_log w1 = (w_log w ++ evs)%list /\ github_events evs = [].

(** *** The runs of POST /api/jobs *)

Section Runs.

Variable blob_sha : Blob -> Sha.
Variable StringToNumber : string -> JSNumber.

(** The tick of the [n]-th call to GitHub of a run that starts in [w]. *)
Definition tick (n : nat) (w : World) : GithubTick := nth n (w_github w) quiet.

(** The file and the reply at the GET of [readJobsFromGithub], at the GET of
    [updateGithubJobs] and at its PUT, for a run that starts in [w]. *)
Definition file_at_read (w : World) : option Blob :=
  after_others (tick 0 w) (w_file w).

Definition read_reply (w : World) : Result (Blob * Sha) :=
  get_reply blob_sha (tick 0 w) (file_at_read w).

Definition file_at_token (w : World) : option Blob :=
  after_others (tick 1 w) (file_at_read w).

Definition token_reply (w : World) : Result (Blob * Sha) :=
  get_reply blob_sha (tick 1 w) (file_at_token w).

Definition file_at_write (w : World) : option Blob :=
  after_others (tick 2 w) (file_at_token w).

Definition write_outcome (w : World) (content : Blob) (sha : Sha)
    : Result unit * option Blob :=
  put_outcome blob_sha (tick 2 w) (file_at_write w) content sha.

(** What the enrichment of a run came to: the value of [careerLink], the
    summary, the verdict, and the calls it made. *)
Record Enrichment : Type := {
  e_careerLink : JSValue;
  e_summary : JSValue;
  e_spam : bool;
  e_events : list Event
}.

Definition enriches (req : Request) (w : World) (en : Enrichment) : Prop :=
  fields_missing (req_body req) = false /\
  assoc "careerLink" (w_global w) = Some (e_careerLink en) /\
  exists w1 w2,
    (if truthy (e_careerLink en)
     then scrapeAndSummarizeCareerPage (e_careerLink en)
     else ret JNull) w = (inr (e_summary en), w1) /\
    detectSpamJob (spam_details (req_body req)) w1 = (inr (JBool (e_spam en)), w2) /\
    w_log w2 = (w_log w ++ e_events en)%list /\
    github_events (e_events en) = [].

(** [newJob] is the object the handler builds from the request, the
    enrichment and the jobs it read. *)
Definition builds (req : Request) (user : JSValue) (en : Enrichment)
    (jobs newJob : JSValue) : Prop :=
  exists id userId createdBy createdAt updatedAt,
    new_job_id StringToNumber jobs = inr id /\
    or_prop (field "userId" (req_body req)) user "userId" = inr userId /\
    or_prop (field "createdBy" (req_body req)) user "username" = inr createdBy /\
    newJob = job_literal (req_body req) id (e_careerLink en) (e_summary en)
               (JBool (e_spam en)) userId createdBy createdAt updatedAt.

(** The handler threw between its read and its write. *)
Definition aborts (req : Request) (user : JSValue) (jobs : JSValue) (e : JSError) : Prop :=
  new_job_id StringToNumber jobs = inl e \/
  or_prop (field "userId" (req_body req)) user "userId" = inl e \/
  or_prop (field "createdBy" (req_body req)) user "username" = inl e \/
  exists newJob, array_push jobs newJob = inl e.

Inductive PostRun (req : Request) (user : JSValue) (w : World)
    : Response -> World -> Prop :=
| run_rejected :
    fields_missing (req_body req) = true ->
    PostRun req user w
      (respond 400
         (JObj [("error",
                 JStr "Required fields missing. Title, description, and company name are required.")]))
      w
| run_unbound :
    fields_missing (req_body req) = false ->
    assoc "careerLink" (w_global w) = None ->
    PostRun req user w (respond 500 (create_failure (ReferenceError "careerLink"))) w
| run_aborted en e w' :
    enriches req w en ->
    aborts req user (jobs_read (read_reply w)) e ->
    w_log w' = (w_log w ++ e_events en ++ [EvGithubGet (read_reply w)])%list ->
    w_file w' = file_at_read w ->
    PostRun req user w (respond 500 (create_failure e)) w'
| run_no_token en l newJob e w' :
    enriches req w en ->
    jobs_read (read_reply w) = JArr l ->
    builds req user en (JArr l) newJob ->
    token_reply w = inl e ->
    w_log w' = (w_log w ++ e_events en
                ++ [EvGithubGet (read_reply w); EvGithubGet (token_reply w)])%list ->
    w_file w' = file_at_token w ->
    PostRun req user w (respond 500 (create_failure e)) w'
| run_written en l newJob current sha w' :
    enriches req w en ->
    jobs_read (read_reply w) = JArr l ->
    builds req user en (JArr l) newJob ->
    token_reply w = inr (current, sha) ->
    let content := WellFormed (JsonArr (map json_element l ++ [json_element newJob])) in
    let outcome := write_outcome w content sha in
    w_log w' = (w_log w ++ e_events en
                ++ [EvGithubGet (read_reply w); EvGithubGet (token_reply w);
                    EvGithubPut content sha (fst outcome)])%list ->
    w_file w' = snd outcome ->
    PostRun req user w
      (match fst outcome with
       | inl e => respond 500 (create_failure e)
       | inr _ => respond 201 (created newJob)
       end)
      w'.

End Runs.

(** *** The store as the design document specifies it

    The properties below are those of the protocol of the design document
    (readAll, append with a version token and a bounded retry); the theorems
    at the end of the file say which of them the routes have. *)

Section Specified.

Variable blob_sha : Blob -> Sha.
Variable jwt_verify : string -> option JSValue.
Variable StringToNumber : string -> JSNumber.

(** The request carries a token that verifies, with payload [user]. *)
Definition authenticated_as (req : Request) (user : JSValue) : Prop :=
  exists token,
    bearer_token req = Some token /\ truthy (JStr token) = true /\
    jwt_verify token = Some user.

(** Every Record committed in [w] is committed in [w']. *)
Definition keeps_records (w w' : World) : Prop :=
  forall r, In r (stored_records w) -> In r (stored_records w').

(** A successful append loses no committed Record. *)
Definition append_keeps_records (req : Request) (w : World) : Prop :=
  forall resp w',
    post_jobs_route blob_sha jwt_verify StringToNumber req w = (inr resp, w') ->
    res_status resp = 201 ->
    keeps_records w w'.

(** The id of a newly appended Record is the maximum of the ids in the
    collection plus 1, and 1 for the empty collection. *)
Definition assigns_next_id (req : Request) (w : World) : Prop :=
  forall resp w' old ids,
    post_jobs_route blob_sha jwt_verify StringToNumber req w = (inr resp, w') ->
    res_status resp = 201 ->
    jobs_read (read_reply blob_sha w) = JArr (map of_json old) ->
    map integer_id (map of_json old) = map Some ids ->
    next_id_assigned resp w' old ids.

(** The conditional write carries the token of the first read. *)
Definition write_uses_read_token (evs : list Event) : Prop :=
  forall content sha reply,
    In (EvGithubPut content sha reply) evs -> first_read_token evs = Some sha.

(** After a rejected write the append goes on (it reads again), or it gives
    up with an error that is not the conflict itself. *)
Definition conflict_handled (evs : list Event) (resp : Response) : Prop :=
  forall pre content sha post,
    evs = (pre ++ EvGithubPut content sha (inl (HttpError 409)) :: post)%list ->
    post <> [] \/ res_body resp <> create_failure (HttpError 409).

(** readAll fails on a content that does not decode and on a failed call,
    and gives the empty collection for a file that does not exist. *)
Definition readAll_reports (w : World) : Prop :=
  let t := next_tick w in
  let file := after_others t (w_file w) in
  let result := fst (readJobsFromGithub blob_sha w) in
  (forall raw, fault t = None -> file = Some (Malformed raw) -> failed result) /\
  (forall e, fault t = Some e -> failed result) /\
  (fault t = None -> file = None -> result = inr (JArr [])).

(** With a [userId] parameter the response is the Records of that user. *)
Definition filters_by_user (req : Request) (w : World) : Prop :=
  forall userId jobs,
    assoc "userId" (req_query req) = Some userId ->
    fst (readJobsFromGithub blob_sha w) = inr (JArr jobs) ->
    fst (get_jobs_route blob_sha req w)
    = inr (respond 200 (JArr (filter (owned_by userId) jobs))).

End Specified.

(** ** Sample data *)

Module Sample.

Definition quoted (s : string) : string :=
  String (ascii_of_nat 34) s ++ String (ascii_of_nat 34) EmptyString.

(** The text of a JSON value, without escapes. *)
Fixpoint json_text (j : Json) : string :=
  match j with
  | JsonNull => "null"
  | JsonBool true => "true"
  | JsonBool false => "false"
  | JsonNum z => NilZero.string_of_int (Z.to_int z)
  | JsonStr s => quoted s
  | JsonArr l => "[" ++ String.concat "," (map json_text l) ++ "]"
  | JsonObj l =>
      "{" ++ String.concat ","
               (map (fun kv => quoted (fst kv) ++ ":" ++ json_text (snd kv)) l)
      ++ "}"
  end.

(** A token that is the content itself. *)
Definition sha (b : Blob) : Sha :=
  match b with
  | WellFormed j => json_text j
  | Malformed raw => raw
  end.

Definition jwt (token : string) : option JSValue :=
  if (token =? "signed")%string
  then Some (JObj [("userId", JNum (Fin 7)); ("username", JStr "ann")])
  else None.

Definition number (s : string) : JSNumber := NaN.

Definition record1 : Json :=
  JsonObj [("id", JsonNum 1); ("title", JsonStr "Clerk"); ("userId", JsonNum 42)].

Definition record2 : Json :=
  JsonObj [("id", JsonNum 2); ("title", JsonStr "Baker"); ("userId", JsonStr "9")].

Definition world (global : list (string * JSValue)) (file : option Blob)
    (ticks : list GithubTick) : World :=
  {| w_global := global; w_file := file; w_github := ticks;
     w_pages := []; w_model := []; w_clock := []; w_log := [] |}.

Definition one_record : option Blob := Some (WellFormed (JsonArr [record1])).

Definition request (authorization : option string)
    (body query : list (string * JSValue)) : Request :=
  {| req_authorization := authorization; req_body := body; req_query := query |}.

Definition posting : list (string * JSValue) :=
  [("title", JStr "A"); ("description", JStr "d"); ("companyName", JStr "C")].

Definition user : JSValue :=
  JObj [("userId", JNum (Fin 7)); ("username", JStr "ann")].

Definition careers : string := "https://example.org/careers".

(** A global object that has a [careerLink] property. *)
Definition bound : list (string * JSValue) := [("careerLink", JStr careers)].

Definition signed : option string := Some "Bearer signed".

Definition post : Request := request signed posting [].

Definition two_records : Blob := WellFormed (JsonArr [record1; record2]).

Definition other_commit : GithubTick :=
  {| others := Some two_records; fault := None |}.

Definition down : GithubTick := {| others := None; fault := Some NetworkError |}.

(** The Record the handler writes for [posting] with the given id. *)
Definition new_record (id : Z) : Json :=
  JsonObj [("id", JsonNum id); ("title", JsonStr "A"); ("description", JsonStr "d");
           ("companyName", JsonStr "C"); ("careerLink", JsonStr careers);
           ("companySummary", JsonNull); ("isSpam", JsonBool false);
           ("userId", JsonNum 7); ("createdBy", JsonStr "ann");
           ("createdAt", JsonStr "1970-01-01T00:00:00.000Z");
           ("updatedAt", JsonStr "1970-01-01T00:00:00.000Z")].

(** The response of a run. *)
Definition answer (run : Result Response * World) : Response :=
  match fst run with
  | inr resp => resp
  | inl _ => respond 0 JUndefined
  end.

(** POST /api/jobs with [posting]: nothing interferes, the read fails,
    another client commits before the GET of the sha, another client commits
    before the PUT. *)
Definition run_post (w : World) : Result Response * World :=
  post_jobs_route sha jwt number post w.

Definition w_quiet : World := world bound one_record [].
Definition w_read_fails : World := world bound one_record [down].
Definition w_commit_before_token : World := world bound one_record [quiet; other_commit].
Definition w_commit_before_write : World :=
  world bound one_record [quiet; quiet; other_commit].
Definition w_unbound : World := world [] one_record [].
Definition w_malformed : World := world [] (Some (Malformed "not json")) [].
Definition w_down : World := world [] one_record [down].

(** The server as it runs (no [careerLink] on the global object) while the
    career page and the model do not answer. *)
Definition w_services_down : World :=
  set_model [inl (ServiceError "quota exceeded"); inl (ServiceError "quota exceeded")]
    (set_pages [inl NetworkError] w_unbound).

End Sample.

(** ** The other routes of the job server (lines 383-429, 269-271) *)

Section MoreRoutes.

Variable blob_sha : Blob -> Sha.
Variable jwt_verify : string -> option JSValue.

(** [parseInt(s)] *)
Variable parseInt : string -> JSNumber.

(** [v === n] for a number [n]: [v] is a number with the same value, and
    [NaN] equals nothing. *)
Definition strict_equal_number (v : JSValue) (n : JSNumber) : bool :=
  match v, n with
  | JNum (Fin a), Fin b => a =? b
  | JNum (Inf s), Inf t => Bool.eqb s t
  | _, _ => false
  end.

Fixpoint find_result (f : JSValue -> Result bool) (l : list JSValue) : Result JSValue :=
  match l with
  | [] => inr JUndefined
  | x :: r =>
      let? hit := f x in
      if hit then inr x else find_result f r
  end.

(** [jobs.find(f)] *)
Definition array_find (jobs : JSValue) (f : JSValue -> Result bool) : Result JSValue :=
  match jobs with
  | JArr l => find_result f l
  | JUndefined | JNull => let? m := get_prop jobs "find" in not_a_function _ "jobs.find"
  | _ => not_a_function _ "jobs.find"
  end.

(** The callback of [jobs.find]: [job.id === parseInt(req.params.id)] *)
Definition has_id (id : string) (job : JSValue) : Result bool :=
  let? jobId := get_prop job "id" in
  inr (strict_equal_number jobId (parseInt id)).

(** Line 415: GET /api/jobs/:id, [id] being [req.params.id]. *)
Definition get_job (id : string) : M Response :=
  try_catch
    (jobs <- readJobsFromGithub blob_sha ;;
     job <- lift (array_find jobs (has_id id)) ;;
     if negb (truthy job) then
       ret (respond 404 (JObj [("error", JStr "Job not found")]))
     else
       ret (respond 200 job))
    (fun error =>
       ret (respond 500 (JObj [("error", JStr "Failed to fetch job")]))).

(** Line 384: GET /api/public/jobs *)
Definition public_jobs : M Response :=
  try_catch
    (jobs <- readJobsFromGithub blob_sha ;;
     ret (respond 200 jobs))
    (fun error =>
       ret (respond 500 (JObj [("error", JStr "Failed to fetch jobs")]))).

(** Line 269: GET /auth/verify *)
Definition auth_verify (req : Request) : M Response :=
  authenticateToken jwt_verify req
    (fun user => ret (respond 200 (JObj [("user", user)]))).

End MoreRoutes.

(** The property [name] of a stored Record. *)
Definition json_field (name : string) (j : Json) : option Json :=
  match j with
  | JsonObj props => assoc name props
  | _ => None
  end.

(** The optional fields of a posting. *)
Definition optional_fields : list string :=
  ["location"; "domain"; "workType"; "employmentType"; "userType";
   "salaryRange"; "applyLink"].

(** ** Handlers that relay requests to GitHub

    The OAuth callback of the job server and the routes of the two issue
    trackers make one or two requests and answer from the replies.  A handler
    is the tree of its requests; [run] gives it the replies of a list, one
    for each request, and collects the requests made. *)

Inductive Http : Type :=
| HttpGet (url : string) (headers : list (string * string))
| HttpPost (url : string) (data : JSValue) (headers : list (string * string)).

Inductive Prog (A : Type) : Type :=
| Done (a : A)
| Raise (e : JSError)
| Await (call : Http) (k : Result JSValue -> Prog A)
| Clock (k : string -> Prog A).

Arguments Done {A} a.
Arguments Raise {A} e.
Arguments Await {A} call k.
Arguments Clock {A} k.

Fixpoint pbind (A B : Type) (p : Prog A) (k : A -> Prog B) : Prog B :=
  match p with
  | Done a => k a
  | Raise e => Raise e
  | Await call k' => Await call (fun r => pbind (k' r) k)
  | Clock k' => Clock (fun t => pbind (k' t) k)
  end.

(** [try { p } catch (error) { h error }] *)
Fixpoint pcatch (A : Type) (p : Prog A) (h : JSError -> Prog A) : Prog A :=
  match p with
  | Done a => Done a
  | Raise e => h e
  | Await call k => Await call (fun r => pcatch (k r) h)
  | Clock k => Clock (fun t => pcatch (k t) h)
  end.

(** [await axios.get(...)], [await axios.post(...)]: [response.data], or the
    rejection thrown. *)
Definition await (call : Http) : Prog JSValue :=
  Await call (fun r => match r with
                       | inr data => Done data
                       | inl e => Raise e
                       end).

Definition plift (A : Type) (r : Result A) : Prog A :=
  match r with
  | inr a => Done a
  | inl e => Raise e
  end.

(** [new Date().toISOString()] *)
Definition now : Prog string := Clock (fun t => Done t).

Notation "x <~ c ;; k" := (pbind c (fun x => k))
  (at level 61, c at next level, right associativity).

(** The outcome of a handler and the requests it made, when the requests
    are answered by [replies] in turn (no answer once the list is used up)
    and the clock reads [clock]. *)
Fixpoint run (A : Type) (p : Prog A) (replies : list (Result JSValue))
    (clock : list string) : Result A * list Http :=
  match p with
  | Done a => (inr a, [])
  | Raise e => (inl e, [])
  | Await call k =>
      let out := run (k (hd (inl NetworkError) replies)) (tl replies) clock in
      (fst out, call :: snd out)
  | Clock k =>
      run (k (hd "1970-01-01T00:00:00.000Z" clock)) replies (tl clock)
  end.

(** [error.response?.status || 500] *)
Definition error_status (e : JSError) : Z :=
  match e with
  | HttpError status => if status =? 0 then 500 else status
  | _ => 500
  end.

(** [items.map(f)] on [response.data] *)
Definition data_map (data : JSValue) (f : JSValue -> Result JSValue) : Result (list JSValue) :=
  match data with
  | JArr l => map_result f l
  | JUndefined | JNull => let? m := get_prop data "map" in not_a_function _ "response.data.map"
  | _ => not_a_function _ "response.data.map"
  end.

(** An object literal whose values are properties of [o], read in order. *)
Fixpoint pick (o : JSValue) (names : list (string * string)) : Result (list (string * JSValue)) :=
  match names with
  | [] => inr []
  | (key, name) :: r =>
      let? v := get_prop o name in
      let? rest := pick o r in
      inr ((key, v) :: rest)
  end.

(** *** Lines 226-267 of server.js: POST /auth/github/callback *)

Section Callback.

(** [process.env.GITHUB_CLIENT_ID], [..._SECRET], [..._CALLBACK_URL] *)
Variable GITHUB_CLIENT_ID GITHUB_CLIENT_SECRET GITHUB_CALLBACK_URL : JSValue.

(** [jwt.sign(payload, secret, { expiresIn: '24h' })] *)
Variable jwt_sign : JSValue -> string.

Definition auth_github_callback (req : Request) : Prog Response :=
  pcatch
    (let code := field "code" (req_body req) in
     tokenData <~ await (HttpPost "https://github.com/login/oauth/access_token"
                           (JObj [("client_id", GITHUB_CLIENT_ID);
                                  ("client_secret", GITHUB_CLIENT_SECRET);
                                  ("code", code);
                                  ("redirect_uri", GITHUB_CALLBACK_URL)])
                           [("Accept", "application/json")]) ;;
     accessToken <~ plift (get_prop tokenData "access_token") ;;
     userData <~ await (HttpGet "https://api.github.com/user"
                          [("Authorization", "Bearer " ++ js_String accessToken)]) ;;
     id <~ plift (get_prop userData "id") ;;
     login <~ plift (get_prop userData "login") ;;
     name <~ plift (get_prop userData "name") ;;
     email <~ plift (get_prop userData "email") ;;
     let user := JObj [("id", id); ("username", login);
                       ("name", js_or name login); ("email", email)] in
     let token := jwt_sign (JObj [("userId", id); ("username", login)]) in
     Done (respond 200 (JObj [("user", user); ("token", JStr token)])))
    (fun error =>
       Done (respond 500 (JObj [("error", JStr "Authentication failed")]))).

End Callback.

(** *** Lines 451-672 of server.js: the issue tracker *)

Section Tracker.

(** The environment, checked at start-up to be set. *)
Variable GITHUB_CLIENT_ID GITHUB_CLIENT_SECRET GITHUB_TOKEN : string.

(** [process.env.NODE_ENV === 'development'] *)
Variable development : bool.

(** [NODE_ENV === 'development' ? error.message : 'Internal server error'] *)
Definition shown_error (e : JSError) : JSValue :=
  JStr (if development then error_message e else "Internal server error").

(** Line 497: POST /api/auth/github *)
Definition tracker_auth_github (req : Request) : Prog Response :=
  let code := field "code" (req_body req) in
  if negb (truthy code) then
    Done (respond 400 (JObj [("message", JStr "Authorization code is required")]))
  else
    pcatch
      (tokenData <~ await (HttpPost "https://github.com/login/oauth/access_token"
                             (JObj [("client_id", JStr GITHUB_CLIENT_ID);
                                    ("client_secret", JStr GITHUB_CLIENT_SECRET);
                                    ("code", code)])
                             [("Accept", "application/json")]) ;;
       access_token <~ plift (get_prop tokenData "access_token") ;;
       if negb (truthy access_token) then
         Raise (ServiceError "Failed to obtain access token")
       else
         token_type <~ plift (get_prop tokenData "token_type") ;;
         Done (respond 200 (JObj [("access_token", access_token);
                                  ("token_type", token_type)])))
      (fun error =>
         Done (respond 500 (JObj [("message", JStr "Authentication failed");
                                  ("error", shown_error error)]))).

Definition tracker_headers : list (string * string) :=
  [("Accept", "application/vnd.github.v3+json");
   ("Authorization", "token " ++ GITHUB_TOKEN);
   ("User-Agent", "GitHubIssuesTracker")].

(** Lines 559-568: the properties of an issue that are passed on. *)
Definition sanitize (issue : JSValue) : Result JSValue :=
  let? props := pick issue [("id", "id"); ("number", "number"); ("title", "title");
                            ("body", "body"); ("html_url", "html_url");
                            ("created_at", "created_at");
                            ("updated_at", "updated_at"); ("state", "state")] in
  inr (JObj props).

(** Line 538: GET /api/github/issues *)
Definition tracker_get_issues (req : Request) : Prog Response :=
  let owner := field "owner" (req_query req) in
  let repo := field "repo" (req_query req) in
  if (negb (truthy owner) || negb (truthy repo))%bool then
    Done (respond 400 (JObj [("message", JStr "Owner and repo are required parameters")]))
  else
    pcatch
      (data <~ await (HttpGet ("https://api.github.com/repos/" ++ js_String owner
                               ++ "/" ++ js_String repo ++ "/issues")
                        tracker_headers) ;;
       sanitizedIssues <~ plift (data_map data sanitize) ;;
       Done (respond 200 (JArr sanitizedIssues)))
      (fun error =>
         Done (respond (error_status error)
                 (JObj [("message", JStr "Failed to fetch issues");
                        ("error", shown_error error)]))).

Definition requiredFields : list string :=
  ["owner"; "repo"; "jobTitle"; "companyName"; "workLocation"; "workDescription"].

(** [requiredFields.filter(field => !req.body[field])] *)
Definition missingFields (body : list (string * JSValue)) : list string :=
  filter (fun name => negb (truthy (field name body))) requiredFields.

Definition newline : string := String (ascii_of_nat 10) EmptyString.

(** Lines 597-605: the body of the issue. *)
Definition issueBody (body : list (string * JSValue)) (posted : string) : string :=
  trim (newline
        ++ "Job Title: " ++ js_String (field "jobTitle" body) ++ newline
        ++ "Company: " ++ js_String (field "companyName" body) ++ newline
        ++ "Location: " ++ js_String (field "workLocation" body) ++ newline
        ++ "Description: " ++ js_String (field "workDescription" body) ++ newline
        ++ newline
        ++ "---" ++ newline
        ++ "Posted: " ++ posted ++ newline
        ++ "  ").

(** Line 596 *)
Definition issueTitle (body : list (string * JSValue)) : string :=
  "Job Posting: " ++ js_String (field "jobTitle" body)
  ++ " at " ++ js_String (field "companyName" body).

(** Line 581: POST /api/github/issues *)
Definition tracker_post_issues (req : Request) : Prog Response :=
  let body := req_body req in
  if negb (Nat.eqb (List.length (missingFields body)) 0) then
    Done (respond 400 (JObj [("message", JStr "Missing required fields");
                             ("fields", JArr (map JStr (missingFields body)))]))
  else
    posted <~ now ;;
    pcatch
      (data <~ await (HttpPost ("https://api.github.com/repos/"
                                ++ js_String (field "owner" body) ++ "/"
                                ++ js_String (field "repo" body) ++ "/issues")
                        (JObj [("title", JStr (issueTitle body));
                               ("body", JStr (issueBody body posted));
                               ("labels", JArr [JStr "job-posting"])])
                        [("Authorization", "token " ++ GITHUB_TOKEN);
                         ("Accept", "application/vnd.github.v3+json");
                         ("User-Agent", "GitHubIssuesTracker")]) ;;
       picked <~ plift (pick data [("id", "id"); ("number", "number");
                                   ("html_url", "html_url");
                                   ("created_at", "created_at")]) ;;
       Done (respond 201
               (JObj [("message", JStr "Job posting created successfully");
                      ("issue",
                       JObj [("id", field "id" picked);
                             ("number", field "number" picked);
                             ("title", JStr (issueTitle body));
                             ("html_url", field "html_url" picked);
                             ("created_at", field "created_at" picked)])])))
      (fun error =>
         Done (respond (error_status error)
                 (JObj [("message", JStr "Failed to create job posting");
                        ("error", shown_error error)]))).

End Tracker.

(** *** The first issue tracker (the file src/unnamed/part_000)

    Its URLs and its Authorization header are written between plain quotes,
    not as template literals: the text [${owner}] is sent as it stands. *)

Section FirstTracker.

(** [process.env.GITHUB_CLIENT_ID], [process.env.GITHUB_CLIENT_SECRET] *)
Variable GITHUB_CLIENT_ID GITHUB_CLIENT_SECRET : JSValue.

(** What a handler does with the request: it answers, or it hands an error
    to [next]. *)
Inductive Outcome : Type :=
| Sent (resp : Response)
| Next (error : JSError).

(** Line 20: POST /api/auth/github *)
Definition first_auth_github (req : Request) : Prog Outcome :=
  let code := field "code" (req_body req) in
  if negb (truthy code) then
    Done (Sent (respond 400 (JObj [("message", JStr "Authorization code is required")])))
  else
    pcatch
      (data <~ await (HttpPost "https://github.com/login/oauth/access_token"
                        (JObj [("client_id", GITHUB_CLIENT_ID);
                               ("client_secret", GITHUB_CLIENT_SECRET);
                               ("code", code)])
                        [("Accept", "application/json")]) ;;
       Done (Sent (respond 200 data)))
      (fun error => Done (Next error)).

Definition first_headers : list (string * string) :=
  [("Accept", "application/vnd.github.v3+json");
   ("User-Agent", "YourAppName");
   ("Authorization", "token ${GITHUB_TOKEN}")].

(** Line 38: GET /api/github/issues *)
Definition first_get_issues (req : Request) : Prog Outcome :=
  let owner := field "owner" (req_query req) in
  let repo := field "repo" (req_query req) in
  if (negb (truthy owner) || negb (truthy repo))%bool then
    Done (Sent (respond 400 (JObj [("message", JStr "Owner and repo are required parameters")])))
  else
    pcatch
      (data <~ await (HttpGet "https://api.github.com/repos/${owner}/${repo}/issues"
                        first_headers) ;;
       Done (Sent (respond 200 data)))
      (fun error => Done (Next error)).

(** Line 56: POST /api/github/issues *)
Definition first_post_issues (req : Request) : Prog Outcome :=
  let owner := field "owner" (req_body req) in
  let repo := field "repo" (req_body req) in
  let title := field "title" (req_body req) in
  let body := field "body" (req_body req) in
  if (negb (truthy owner) || negb (truthy repo) || negb (truthy title)
      || negb (truthy body))%bool then
    Done (Sent (respond 400 (JObj [("message", JStr "Owner, repo, title, and body are required")])))
  else
    pcatch
      (data <~ await (HttpPost "https://api.github.com/repos/${owner}/${repo}/issues"
                        (JObj [("title", title); ("body", body)])
                        [("Authorization", "token ${GITHUB_TOKEN}");
                         ("Accept", "application/vnd.github.v3+json");
                         ("User-Agent", "YourAppName")]) ;;
       Done (Sent (respond 200 data)))
      (fun error => Done (Next error)).

End FirstTracker.


(** *** Sample data for the other routes *)

Module More.

Definition page : string :=
  "We bake bread and cakes every morning, and we are hiring two bakers.".

(** The career page is served and the model answers. *)
Definition w_page : World :=
  set_model [inr "A bakery."%string] (set_pages [inr page] Sample.w_quiet).

(** [parseInt] on the one parameter the samples use. *)
Definition parse (s : string) : JSNumber :=
  if (s =? "2")%string then Fin 2 else NaN.

Definition w_missing : World := Sample.world Sample.bound None [].
Definition w_object : World :=
  Sample.world [] (Some (WellFormed Sample.record1)) [].
Definition w_two : World := Sample.world [] (Some Sample.two_records) [].
Definition w_put_fails : World :=
  Sample.world Sample.bound Sample.one_record [quiet; quiet; Sample.down].

Definition no_id : JSValue := JObj [("title", JStr "Clerk")].

Definition pass (user : JSValue) : M Response := ret (respond 200 user).

Definition sign (payload : JSValue) : string := "signed".

Definition code : Request := Sample.request None [("code", JStr "c0de")] [].

Definition repository : Request :=
  Sample.request None [] [("owner", JStr "octo"); ("repo", JStr "jobs")].

Definition opening : Request :=
  Sample.request None
    [("owner", JStr "octo"); ("repo", JStr "jobs"); ("jobTitle", JStr "Baker");
     ("companyName", JStr "Crumb"); ("workLocation", JStr "Leeds");
     ("workDescription", JStr "Bread")] [].

Definition draft : Request :=
  Sample.request None
    [("owner", JStr "octo"); ("repo", JStr ""); ("jobTitle", JStr "Baker");
     ("companyName", JStr "Crumb"); ("workDescription", JStr "Bread")] [].

Definition issue : JSValue :=
  JObj [("id", JNum (Fin 11)); ("number", JNum (Fin 3)); ("title", JStr "Other");
        ("user", JObj [("login", JStr "octo")]);
        ("html_url", JStr "https://github.com/octo/jobs/issues/3");
        ("created_at", JStr "2024-01-01T00:00:00Z")].

Definition report : Request :=
  Sample.request None
    [("owner", JStr "octo"); ("repo", JStr "jobs"); ("title", JStr "T");
     ("body", JStr "B")] [].

End More.

(** ** Properties *)

Local Open Scope list_scope.

(** *** The operators on sample values *)

Example split_authorization :
  split_space "Bearer abc.def" = ["Bearer"%string; "abc.def"%string]
  /\ split_space "Bearer" = ["Bearer"%string]
  /\ split_space "Bearer " = ["Bearer"%string; ""%string].
Proof. repeat split. Qed.

Example bearer_token_samples :
  bearer_token (Sample.request (Some "Bearer abc.def"%string) [] []) = Some "abc.def"%string
  /\ bearer_token (Sample.request (Some "Bearer"%string) [] []) = None
  /\ bearer_token (Sample.request None [] []) = None.
Proof. repeat split. Qed.

Example verdict_text :
  toLowerCase (trim " True ") = "true"%string
  /\ toLowerCase (trim "false") = "false"%string.
Proof. split; reflexivity. Qed.

Example String_of_large_numbers :
  js_String (JNum (Fin (2 ^ 53))) = "9007199254740992"%string
  /\ js_String (JNum (Fin (2 ^ 60))) = "1152921504606847000"%string
  /\ js_String (JNum (Fin (10 ^ 21))) = "1e+21"%string
  /\ js_String (JNum (Fin (- 2 ^ 70))) = "-1.1805916207174113e+21"%string
  /\ num_add (Fin (2 ^ 53)) (Fin 1) = Fin (2 ^ 53)
  /\ num_add (Fin (2 ^ 53)) (Fin 3) = Fin (2 ^ 53 + 4).
Proof. repeat split; vm_compute; reflexivity. Qed.

Example String_throws :
  js_ToString (JObj [("toString", JNum (Fin 1))])
  = inl (TypeError "Cannot convert object to primitive value")
  /\ js_ToString (JObj [("name", JStr "ann")]) = inr "[object Object]"%string
  /\ js_ToString (JArr [JNum (Fin 1); JNull; JArr [JStr "x"; JStr "y"]])
     = inr "1,,x,y"%string
  /\ convertible (JArr [JObj [("toString", JNull)]]) = false.
Proof. repeat split. Qed.

Example String_samples :
  js_String (JNum (Fin 42)) = "42"%string
  /\ js_String (JNum (Fin (-7))) = "-7"%string
  /\ js_String (JArr [JNum (Fin 1); JNull; JStr "x"]) = "1,,x"%string
  /\ js_String JUndefined = "undefined"%string.
Proof. repeat split. Qed.

Example stringify_samples :
  to_json (JObj [("a", JUndefined); ("b", JNum NaN); ("c", JArr [JUndefined])])
  = Some (JsonObj [("b", JsonNull); ("c", JsonArr [JsonNull])]).
Proof. reflexivity. Qed.

Example careerLink_is_not_declared : declared "careerLink" = false.
Proof. reflexivity. Qed.

(** *** JSON *)

Lemma to_json_of_json (j : Json) : to_json (of_json j) = Some j.
Proof.
  induction j as [ | b | z | s | l IH | l IH ] using Json_nested_ind;
    simpl; try reflexivity.
  - f_equal. f_equal. rewrite map_map.
    induction IH as [ | x r Hx _ IHr ]; simpl; [ reflexivity | ].
    rewrite Hx. f_equal. exact IHr.
  - f_equal. f_equal.
    induction IH as [ | [k v] r Hx _ IHr ]; simpl; [ reflexivity | ].
    simpl in Hx. rewrite Hx. simpl. f_equal. exact IHr.
Qed.

Lemma json_element_of_json (j : Json) : json_element (of_json j) = j.
Proof. unfold json_element. now rewrite to_json_of_json. Qed.

Lemma json_elements_of_json (l : list Json) :
  map json_element (map of_json l) = l.
Proof.
  induction l as [ | j r IH ]; simpl; [ reflexivity | ].
  now rewrite json_element_of_json, IH.
Qed.

Lemma encode_jobs_array (l : list JSValue) :
  encode_jobs (JArr l) = inr (WellFormed (JsonArr (map json_element l))).
Proof. reflexivity. Qed.

Lemma encode_pushed (old : list Json) (x : JSValue) :
  encode_jobs (JArr (map of_json old ++ [x]))
  = inr (WellFormed (JsonArr (old ++ [json_element x]))).
Proof.
  rewrite encode_jobs_array, map_app, json_elements_of_json. reflexivity.
Qed.

(** *** The log *)

Lemma github_events_app (a b : list Event) :
  github_events (a ++ b) = github_events a ++ github_events b.
Proof. apply filter_app. Qed.

Lemma no_github_step_refl (w : World) : no_github_step w w.
Proof.
  repeat split. exists []. now rewrite app_nil_r.
Qed.

Lemma no_github_step_trans (w w1 w2 : World) :
  no_github_step w w1 -> no_github_step w1 w2 -> no_github_step w w2.
Proof.
  intros (Hg & Hf & Ht & Hc & evs & Hl & He) (Hg' & Hf' & Ht' & Hc' & evs' & Hl' & He').
  repeat split; try congruence.
  exists (evs ++ evs'). split.
  - now rewrite Hl', Hl, app_assoc.
  - now rewrite github_events_app, He, He'.
Qed.

Lemma page_get_step (url : string) (w : World) :
  no_github_step w (snd (page_get url w)).
Proof.
  unfold page_get. simpl. repeat split. eexists. split; reflexivity.
Qed.

Lemma generateContent_step (prompt : Prompt) (w : World) :
  no_github_step w (snd (generateContent prompt w)).
Proof.
  unfold generateContent. simpl. repeat split. eexists. split; reflexivity.
Qed.

(** [scrapeAndSummarizeCareerPage] returns, whatever its calls do. *)
Lemma scrape_returns (url : JSValue) (w : World) :
  exists v w1,
    scrapeAndSummarizeCareerPage url w = (inr v, w1) /\ no_github_step w w1.
Proof.
  unfold scrapeAndSummarizeCareerPage, try_catch.
  destruct (truthy url); simpl;
    [ | do 2 eexists; split; [ reflexivity | apply no_github_step_refl ] ].
  destruct url; simpl;
    try (do 2 eexists; split; [ reflexivity | apply no_github_step_refl ]).
  destruct (startsWith s "http"); simpl;
    [ | do 2 eexists; split; [ reflexivity | apply no_github_step_refl ] ].
  unfold bind at 1.
  pose proof (page_get_step s w) as Hp.
  destruct (page_get s w) as [[e | text] w1]; simpl in Hp;
    [ do 2 eexists; split; [ reflexivity | exact Hp ] | ].
  match goal with
  | |- context [if ?c then _ else _] => destruct c
  end; [ do 2 eexists; split; [ reflexivity | exact Hp ] | ].
  unfold bind at 1.
  pose proof (generateContent_step (SummaryPrompt (substring 0 5000 text)) w1) as Hg.
  destruct (generateContent _ w1) as [[e | summary] w2]; simpl in Hg;
    [ do 2 eexists; split;
      [ reflexivity | exact (no_github_step_trans Hp Hg) ] | ].
  match goal with
  | |- context [if ?c then _ else _] => destruct c
  end; do 2 eexists; (split; [ reflexivity | exact (no_github_step_trans Hp Hg) ]).
Qed.

(** [detectSpamJob] returns a boolean, whatever its call does. *)
Lemma detectSpam_returns (details : JSValue) (w : World) :
  exists b w1,
    detectSpamJob details w = (inr (JBool b), w1) /\ no_github_step w w1.
Proof.
  unfold detectSpamJob, try_catch, bind.
  pose proof (generateContent_step (SpamPrompt (to_json details)) w) as Hg.
  destruct (generateContent _ w) as [[e | text] w1]; simpl in Hg;
    do 2 eexists; (split; [ reflexivity | exact Hg ]).
Qed.

(** *** The job file *)

Section Theory.

Variable blob_sha : Blob -> Sha.
Variable jwt_verify : string -> option JSValue.
Variable StringToNumber : string -> JSNumber.

Lemma readJobs_run (w : World) :
  readJobsFromGithub blob_sha w
  = (inr (jobs_read (fst (github_get blob_sha w))), snd (github_get blob_sha w)).
Proof.
  unfold readJobsFromGithub, try_catch, bind, lift.
  destruct (github_get blob_sha w) as [[e | [[j | raw] sha]] w1]; reflexivity.
Qed.

Lemma bind_inr {A B : Type} {m : M A} (k : A -> M B) {w w' : World} {a : A} :
  m w = (inr a, w') -> bind m k w = k a w'.
Proof. intros H. unfold bind. now rewrite H. Qed.

Lemma bind_inl {A B : Type} {m : M A} (k : A -> M B) {w w' : World} {e : JSError} :
  m w = (inl e, w') -> bind m k w = (inl e, w').
Proof. intros H. unfold bind. now rewrite H. Qed.

Lemma updateGithubJobs_array (l : list JSValue) (w : World) :
  let g := github_get blob_sha w in
  updateGithubJobs blob_sha (JArr l) w
  = match fst g with
    | inl e => (inl e, snd g)
    | inr (current, sha) =>
        let p := github_put blob_sha (WellFormed (JsonArr (map json_element l))) sha (snd g) in
        (match fst p with inl e => inl e | inr _ => inr (JBool true) end, snd p)
    end.
Proof.
  intros g. subst g. unfold updateGithubJobs, try_catch.
  destruct (github_get blob_sha w) as [[e | [current sha]] w1] eqn:Hg.
  - rewrite (bind_inl _ Hg). reflexivity.
  - rewrite (bind_inr _ Hg). cbn [fst snd].
    rewrite (bind_inr (m := lift (encode_jobs (JArr l))) _
               (a := WellFormed (JsonArr (map json_element l))) (w' := w1) eq_refl).
    destruct (github_put blob_sha (WellFormed (JsonArr (map json_element l))) sha w1)
      as [[e | []] w2] eqn:Hp.
    + rewrite (bind_inl _ Hp). reflexivity.
    + rewrite (bind_inr _ Hp). reflexivity.
Qed.

Lemma try_catch_inr {A : Type} {m : M A} (h : JSError -> M A) {w w' : World} {a : A} :
  m w = (inr a, w') -> try_catch m h w = (inr a, w').
Proof. intros H. unfold try_catch. now rewrite H. Qed.

Lemma try_catch_inl {A : Type} {m : M A} (h : JSError -> M A) {w w' : World} {e : JSError} :
  m w = (inl e, w') -> try_catch m h w = h e w'.
Proof. intros H. unfold try_catch. now rewrite H. Qed.

Lemma free_variable_bound (x : string) (v : JSValue) (w : World) :
  assoc x (w_global w) = Some v -> free_variable x w = (inr v, w).
Proof. intros H. unfold free_variable. now rewrite H. Qed.

Lemma summary_returns (careerLink : JSValue) (w : World) :
  exists v w1,
    (if truthy careerLink then scrapeAndSummarizeCareerPage careerLink
     else ret JNull) w = (inr v, w1)
    /\ no_github_step w w1.
Proof.
  destruct (truthy careerLink).
  - apply scrape_returns.
  - exists JNull, w. split; [ reflexivity | apply no_github_step_refl ].
Qed.

Lemma lift_run (A : Type) (r : Result A) (w : World) : lift r w = (r, w).
Proof. reflexivity. Qed.

Lemma date_now_run (w : World) :
  date_now w
  = (inr (hd "1970-01-01T00:00:00.000Z"%string (w_clock w)), set_clock (tl (w_clock w)) w).
Proof. reflexivity. Qed.

Lemma array_push_inr (jobs x v : JSValue) :
  array_push jobs x = inr v -> exists l, jobs = JArr l /\ v = JArr (l ++ [x]).
Proof.
  destruct jobs; simpl; try discriminate.
  intros H. injection H as <-. now eexists.
Qed.

Ltac step H := rewrite (bind_inr _ H); cbv beta.
Ltac split_all := repeat match goal with |- _ /\ _ => split end.
Ltac stop H := rewrite (bind_inl _ H).

Lemma post_jobs_runs (req : Request) (user : JSValue) (w : World) :
  exists resp w',
    post_jobs blob_sha StringToNumber req user w = (inr resp, w')
    /\ PostRun blob_sha StringToNumber req user w resp w'.
Proof.
  unfold post_jobs. cbv zeta.
  destruct (fields_missing (req_body req)) eqn:Hvalid.
  { do 2 eexists. split; [ reflexivity | now apply run_rejected ]. }
  destruct (assoc "careerLink" (w_global w)) as [cl | ] eqn:Hcl.
  2:{ do 2 eexists. split; [ | now apply run_unbound ].
      unfold try_catch, bind, free_variable. rewrite Hcl. reflexivity. }
  destruct (summary_returns cl w) as (cs & w1 & Hcs & S1).
  destruct (detectSpam_returns (spam_details (req_body req)) w1) as (b & w2 & Hb & S2).
  pose proof (no_github_step_trans S1 S2) as (Hglobal & Hfile & Hticks & Hclock & enrich & Hlog & Hfree).
  set (en := {| e_careerLink := cl; e_summary := cs; e_spam := b; e_events := enrich |}).
  assert (Hen : enriches req w en).
  { split; [ exact Hvalid | ]. split; [ exact Hcl | ].
    exists w1, w2. repeat split; assumption. }
  pose proof (readJobs_run w2) as Hread.
  set (w3 := snd (github_get blob_sha w2)) in *.
  assert (Hreply : fst (github_get blob_sha w2) = read_reply blob_sha w).
  { unfold read_reply, file_at_read, tick. simpl. unfold next_tick.
    rewrite Hfile, Hticks. now destruct (w_github w). }
  rewrite Hreply in Hread.
  set (jobs := jobs_read (read_reply blob_sha w)) in *.
  assert (Hlog3 : w_log w3 = w_log w ++ enrich ++ [EvGithubGet (read_reply blob_sha w)]).
  { subst w3.
    change (w_log (snd (github_get blob_sha w2)))
      with (w_log w2 ++ [EvGithubGet (fst (github_get blob_sha w2))]).
    now rewrite Hreply, Hlog, <- app_assoc. }
  assert (Hfile3 : w_file w3 = file_at_read w).
  { subst w3. simpl. unfold file_at_read, tick, next_tick.
    rewrite Hfile, Hticks. now destruct (w_github w). }
  unfold try_catch.
  step (free_variable_bound _ _ Hcl).
  step Hcs. step Hb. step Hread.
  destruct (new_job_id StringToNumber jobs) as [e | id] eqn:Hid.
  { stop (lift_run (inl (B := JSValue) e) w3).
    do 2 eexists. split; [ reflexivity | ].
    apply run_aborted with (en := en); try assumption. now left. }
  step (lift_run (inr (A := JSError) id) w3).
  assert (Hcl3 : assoc "careerLink" (w_global w3) = Some cl).
  { subst w3. simpl. now rewrite Hglobal. }
  step (free_variable_bound _ _ Hcl3).
  destruct (or_prop (field "userId" (req_body req)) user "userId") as [e | userId] eqn:Hu.
  { stop (lift_run (inl (B := JSValue) e) w3).
    do 2 eexists. split; [ reflexivity | ].
    apply run_aborted with (en := en); try assumption. right. now left. }
  step (lift_run (inr (A := JSError) userId) w3).
  destruct (or_prop (field "createdBy" (req_body req)) user "username") as [e | createdBy] eqn:Hc.
  { stop (lift_run (inl (B := JSValue) e) w3).
    do 2 eexists. split; [ reflexivity | ].
    apply run_aborted with (en := en); try assumption. right. right. now left. }
  step (lift_run (inr (A := JSError) createdBy) w3).
  step (date_now_run w3).
  set (w4 := set_clock (tl (w_clock w3)) w3).
  step (date_now_run w4).
  set (w5 := set_clock (tl (w_clock w4)) w4).
  match goal with
  | |- context [array_push jobs ?x] => set (newJob := x)
  end.
  assert (Hbuilds : forall l, jobs = JArr l ->
             builds StringToNumber req user en (JArr l) newJob).
  { intros l Hl. exists id, userId, createdBy. do 2 eexists.
    rewrite <- Hl. repeat split; try assumption. }
  destruct (array_push jobs newJob) as [e | jobs'] eqn:Hpush.
  { stop (lift_run (inl (B := JSValue) e) w5).
    do 2 eexists. split; [ reflexivity | ].
    apply run_aborted with (en := en); try assumption.
    right. right. right. now exists newJob. }
  step (lift_run (inr (A := JSError) jobs') w5).
  destruct (array_push_inr _ _ Hpush) as (l & Hl & ->).
  pose proof (updateGithubJobs_array (l ++ [newJob]) w5) as Hupdate.
  cbv zeta in Hupdate.
  assert (Htoken : fst (github_get blob_sha w5) = token_reply blob_sha w).
  { unfold token_reply, file_at_token, github_get. cbn [fst].
    change (w_file w5) with (w_file w3). rewrite Hfile3.
    replace (next_tick w5) with (tick 1 w); [ reflexivity | ].
    unfold tick, next_tick. change (w_github w5) with (tl (w_github w2)).
    rewrite Hticks. now destruct (w_github w) as [ | ? [ | ? ? ] ]. }
  set (w6 := snd (github_get blob_sha w5)) in *.
  assert (Hlog6 : w_log w6 = w_log w ++ enrich
                  ++ [EvGithubGet (read_reply blob_sha w);
                      EvGithubGet (token_reply blob_sha w)]).
  { subst w6.
    change (w_log (snd (github_get blob_sha w5)))
      with (w_log w3 ++ [EvGithubGet (fst (github_get blob_sha w5))]).
    rewrite Htoken, Hlog3, <- !app_assoc. reflexivity. }
  assert (Hfile6 : w_file w6 = file_at_token w).
  { subst w6. unfold file_at_token, github_get. cbn [snd].
    change (w_file (log_event ?ev (set_github ?f ?t ?x))) with f.
    change (w_file w5) with (w_file w3). rewrite Hfile3.
    replace (next_tick w5) with (tick 1 w); [ reflexivity | ].
    unfold tick, next_tick. change (w_github w5) with (tl (w_github w2)).
    rewrite Hticks. now destruct (w_github w) as [ | ? [ | ? ? ] ]. }
  assert (Hticks6 : next_tick w6 = tick 2 w).
  { unfold tick, next_tick. change (w_github w6) with (tl (tl (w_github w2))).
    rewrite Hticks. now destruct (w_github w) as [ | ? [ | ? [ | ? ? ] ] ]. }
  rewrite Htoken in Hupdate.
  destruct (token_reply blob_sha w) as [e | [current sha]] eqn:Hreply2.
  { stop Hupdate.
    do 2 eexists. split; [ reflexivity | ].
    apply run_no_token with (en := en) (l := l) (newJob := newJob); auto;
      now rewrite Hreply2. }
  rewrite map_app in Hupdate. cbn [map] in Hupdate.
  set (content := WellFormed (JsonArr (map json_element l ++ [json_element newJob]))) in *.
  assert (Hput : github_put blob_sha content sha w6
                 = (fst (write_outcome blob_sha w content sha),
                    snd (github_put blob_sha content sha w6))).
  { unfold github_put, write_outcome, file_at_write. cbn [fst snd].
    now rewrite Hticks6, Hfile6. }
  rewrite Hput in Hupdate. cbn [fst snd] in Hupdate.
  set (w7 := snd (github_put blob_sha content sha w6)) in *.
  assert (Hlog7 : w_log w7 = w_log w ++ enrich
                  ++ [EvGithubGet (read_reply blob_sha w);
                      EvGithubGet (token_reply blob_sha w);
                      EvGithubPut content sha (fst (write_outcome blob_sha w content sha))]).
  { subst w7.
    change (w_log (snd (github_put blob_sha content sha w6)))
      with (w_log w6 ++ [EvGithubPut content sha (fst (github_put blob_sha content sha w6))]).
    rewrite Hput, Hlog6, ?Hreply2, <- !app_assoc. reflexivity. }
  assert (Hfile7 : w_file w7 = snd (write_outcome blob_sha w content sha)).
  { subst w7. unfold github_put, write_outcome, file_at_write. cbn [snd].
    change (w_file (log_event ?ev (set_github ?f ?t ?x))) with f.
    now rewrite Hticks6, Hfile6. }
  pose proof (@run_written blob_sha StringToNumber req user w en l newJob current sha w7
                Hen Hl (Hbuilds l Hl) Hreply2) as Hrun.
  cbv zeta in Hrun. fold content in Hrun.
  specialize (Hrun Hlog7 Hfile7).
  destruct (fst (write_outcome blob_sha w content sha)) as [e | []] eqn:Hw.
  - stop Hupdate. do 2 eexists. split; [ reflexivity | exact Hrun ].
  - step Hupdate. do 2 eexists. split; [ reflexivity | exact Hrun ].
Qed.

(** *** The routes *)

Local Notation "'post_route'" := (post_jobs_route blob_sha jwt_verify StringToNumber).
Local Notation "'authenticated'" := (authenticated_as jwt_verify).

Lemma post_jobs_route_authenticated (req : Request) (user : JSValue) (w : World) :
  authenticated req user ->
  post_route req w = post_jobs blob_sha StringToNumber req user w.
Proof.
  intros (token & Hb & Ht & Hv).
  unfold post_jobs_route, authenticateToken. now rewrite Hb, Ht, Hv.
Qed.

(** The route answers 401 or 403 without a call, or runs the handler. *)
Lemma post_jobs_route_runs (req : Request) (w : World) :
  exists resp w',
    post_route req w = (inr resp, w') /\
    (((res_status resp = 401 \/ res_status resp = 403) /\ w' = w) \/
     exists user,
       authenticated req user /\
       PostRun blob_sha StringToNumber req user w resp w').
Proof.
  unfold post_jobs_route, authenticateToken.
  destruct (bearer_token req) as [token | ] eqn:Hb;
    [ | do 2 eexists; split; [ reflexivity | left; split; [ now left | reflexivity ] ] ].
  destruct (truthy (JStr token)) eqn:Ht; cbn [negb];
    [ | do 2 eexists; split; [ reflexivity | left; split; [ now left | reflexivity ] ] ].
  destruct (jwt_verify token) as [user | ] eqn:Hv;
    [ | do 2 eexists; split; [ reflexivity | left; split; [ now right | reflexivity ] ] ].
  destruct (post_jobs_runs req user w) as (resp & w' & Hrun & HR).
  exists resp, w'. split; [ exact Hrun | ].
  right. exists user. split; [ | exact HR ].
  exists token. auto.
Qed.

(** Without a [careerLink] on the global object a run of the route calls
    nothing and is not answered 201. *)
Lemma post_route_unbound (req : Request) (w : World) (resp : Response) (w' : World) :
  assoc "careerLink" (w_global w) = None ->
  post_route req w = (inr resp, w') ->
  w' = w /\ res_status resp <> 201.
Proof.
  intros Hfree Hrun.
  destruct (post_jobs_route_runs req w) as (resp0 & w0 & Hrun0 & Hcases).
  rewrite Hrun in Hrun0. injection Hrun0 as <- <-.
  destruct Hcases as [[[H | H] ->] | (user & Hauth & HR)];
    [ split; [ reflexivity | rewrite H; discriminate ]
    | split; [ reflexivity | rewrite H; discriminate ] | ].
  inversion HR; subst;
    try (split; [ reflexivity | discriminate ]);
    match goal with
    | Hen : enriches _ _ _ |- _ => destruct Hen as (_ & Hcl & _); congruence
    end.
Qed.

Lemma log_unchanged (w : World) (evs : list Event) :
  w_log w = w_log w ++ evs -> evs = [].
Proof.
  intros H. rewrite <- (app_nil_r (w_log w)) in H at 1.
  now apply app_inv_head in H.
Qed.

Lemma missing_or_empty_falsy (name : string) (body : list (string * JSValue)) :
  missing_or_empty name body -> truthy (field name body) = false.
Proof. intros [-> | ->]; reflexivity. Qed.

(** C8: an authenticated POST /api/jobs whose title, description or
    companyName is missing or empty is answered 400 before any call to the
    backend, and the world (the file, the log) is as it was. *)
Theorem C8_missing_field_rejected (req : Request) (user : JSValue) (w : World) :
  authenticated req user ->
  missing_or_empty "title" (req_body req)
  \/ missing_or_empty "description" (req_body req)
  \/ missing_or_empty "companyName" (req_body req) ->
  post_route req w
  = (inr (respond 400
            (JObj [("error",
                    JStr "Required fields missing. Title, description, and company name are required.")])),
     w).
Proof.
  intros Hauth Hmissing.
  rewrite (post_jobs_route_authenticated w Hauth).
  assert (Hf : fields_missing (req_body req) = true).
  { unfold fields_missing.
    destruct Hmissing as [H | [H | H]]; apply missing_or_empty_falsy in H;
      rewrite H; cbn [negb]; rewrite ?orb_true_r; reflexivity. }
  unfold post_jobs, try_catch. cbv zeta. rewrite Hf. reflexivity.
Qed.

(** C3: no scope of the file declares [careerLink]; unless the global object
    has such a property, every authenticated POST /api/jobs with a title, a
    description and a company name throws at line 320, before any enrichment
    call and any call to the backend, and is answered 500, never 201; the
    world (the file, the log) is as it was. *)
Theorem C3_careerLink_unbound (req : Request) (user : JSValue) (w : World) :
  authenticated req user ->
  truthy (field "title" (req_body req)) = true ->
  truthy (field "description" (req_body req)) = true ->
  truthy (field "companyName" (req_body req)) = true ->
  assoc "careerLink" (w_global w) = None ->
  declared "careerLink" = false /\
  post_route req w
  = (inr (respond 500
            (JObj [("error", JStr "Failed to create job");
                   ("details", JStr "careerLink is not defined")])),
     w).
Proof.
  intros Hauth Ht Hd Hc Hfree. split; [ reflexivity | ].
  rewrite (post_jobs_route_authenticated w Hauth).
  unfold post_jobs, try_catch, fields_missing. cbv zeta.
  rewrite Ht, Hd, Hc. cbn [negb orb].
  unfold bind, free_variable. rewrite Hfree. reflexivity.
Qed.

(** C5 (as the code has it): [readJobsFromGithub] never fails.  It makes one
    GET and no second attempt; it returns the parsed content when the call
    is answered with a well-formed JSON text (array or not), and the empty
    array in every other case: the call failed, the file does not exist, or
    the content does not parse. *)
Theorem C5_readJobs_never_fails (w : World) :
  let t := next_tick w in
  let file := after_others t (w_file w) in
  readJobsFromGithub blob_sha w
  = (inr (match fault t, file with
          | None, Some (WellFormed j) => of_json j
          | _, _ => JArr []
          end),
     log_event (EvGithubGet (get_reply blob_sha t file))
       (set_github file (tl (w_github w)) w)).
Proof.
  intros t file. rewrite readJobs_run. unfold github_get. cbn [fst snd].
  fold t. fold file. f_equal. f_equal.
  unfold get_reply, jobs_read.
  destruct (fault t); [ reflexivity | ].
  destruct file as [[j | raw] | ]; reflexivity.
Qed.

(** *** GET /api/jobs *)

Lemma same_user_object (userId job : JSValue) :
  is_object job = true ->
  same_user userId job
  = match js_ToString (prop_of job "userId"), js_ToString userId with
    | inl e, _ => inl e
    | inr _, inl e => inl e
    | inr a, inr b => inr (a =? b)%string
    end.
Proof.
  destruct job; try discriminate. intros _.
  unfold same_user. cbn [get_prop prop_of]. fold (field "userId" props).
  destruct (js_ToString (field "userId" props)); [ reflexivity | ].
  destruct (js_ToString userId); reflexivity.
Qed.

(** [jobs.filter] with the callback of GET /api/jobs throws when one of the
    conversions does, and otherwise keeps the jobs of the user. *)
Lemma filter_result_objects (userId : JSValue) (jobs : list JSValue) :
  forallb is_object jobs = true ->
  (filter_throws userId jobs = false ->
   filter_result (same_user userId) jobs = inr (filter (owned_by userId) jobs))
  /\ (filter_throws userId jobs = true ->
      exists e, filter_result (same_user userId) jobs = inl e).
Proof.
  induction jobs as [ | job r IH ]; [ split; [ reflexivity | discriminate ] | ].
  cbn [forallb]. intros [Hjob Hr]%andb_prop.
  destruct (IH Hr) as [IHsome IHnone].
  change (filter_throws userId (job :: r))
    with ((negb (convertible (prop_of job "userId")) || negb (convertible userId))
          || filter_throws userId r)%bool.
  cbn [filter_result filter]. rewrite (same_user_object _ _ Hjob).
  assert (Howned : owned_by userId job
                   = match js_ToString (prop_of job "userId"), js_ToString userId with
                     | inr a, inr b => (a =? b)%string
                     | _, _ => false
                     end) by reflexivity.
  rewrite Howned. unfold convertible.
  destruct (js_ToString (prop_of job "userId")) as [e | a];
    [ split; [ discriminate | intros _; now exists e ] | ].
  destruct (js_ToString userId) as [e | b];
    [ split; [ cbn [negb orb]; discriminate | intros _; now exists e ] | ].
  cbn [negb orb]. split.
  - intros H. now rewrite (IHsome H).
  - intros H. destruct (IHnone H) as (e & ->). now exists e.
Qed.

Lemma get_jobs_route_authenticated_verified (req : Request) (user : JSValue) (w : World) :
  authenticated req user ->
  get_jobs_route_authenticated blob_sha jwt_verify req w = get_jobs_route blob_sha req w.
Proof.
  intros (token & Hb & Ht & Hv).
  unfold get_jobs_route_authenticated, authenticateToken. now rewrite Hb, Ht, Hv.
Qed.

(** C10 (as the code has it): when the jobs read are Records, GET /api/jobs
    with a [userId] parameter that is truthy (a non-empty string) answers
    with exactly the Records whose [userId], as a string, is the parameter
    as a string, in their order; a stored number 42 matches the parameter
    "42", and a stored 1e21 the parameter "1e+21".  This is so when
    [String] returns for the parameter and for the [userId] of every Record;
    it throws for an object that has a [toString] property of its own, and
    the answer is then 500.  Without the parameter, or with an empty one,
    the route answers with all the Records.  The second registration does
    the same once the token verifies. *)
Theorem C10_get_jobs_by_user (req : Request) (w : World) (jobs : list JSValue) :
  fst (readJobsFromGithub blob_sha w) = inr (JArr jobs) ->
  forallb is_object jobs = true ->
  let userId := field "userId" (req_query req) in
  fst (get_jobs_route blob_sha req w)
  = inr (if truthy userId
         then if filter_throws userId jobs
              then respond 500 (JObj [("error", JStr "Failed to fetch jobs")])
              else respond 200 (JArr (filter (owned_by userId) jobs))
         else respond 200 (JArr jobs))
  /\ owned_by (JStr "42") (JObj [("userId", JNum (Fin 42))]) = true
  /\ owned_by (JStr "1e+21") (JObj [("userId", JNum (Fin (10 ^ 21)))]) = true
  /\ (forall user, authenticated req user ->
        get_jobs_route_authenticated blob_sha jwt_verify req w
        = get_jobs_route blob_sha req w).
Proof.
  intros Hread Hrecords userId.
  split; [ | split; [ reflexivity | split;
             [ vm_compute; reflexivity
             | intros user; apply get_jobs_route_authenticated_verified ] ] ].
  unfold get_jobs_route, get_jobs, try_catch.
  destruct (readJobsFromGithub blob_sha w) as [r w1] eqn:Hr.
  cbn [fst] in Hread. subst r.
  step Hr. fold userId.
  destruct (truthy userId); [ | reflexivity ].
  unfold bind, lift, array_filter.
  destruct (filter_result_objects userId jobs Hrecords) as [Hsome Hnone].
  destruct (filter_throws userId jobs).
  - destruct (Hnone eq_refl) as (e & ->). reflexivity.
  - rewrite (Hsome eq_refl). reflexivity.
Qed.

(** *** The id of a new job *)

Lemma integer_id_read (job : JSValue) (z : Z) :
  integer_id job = Some z -> get_prop job "id" = inr (JNum (Fin z)).
Proof.
  unfold integer_id, prop_of, get_prop, field.
  destruct job; try discriminate.
  destruct (assoc "id" props) as [[ | | | [ | | ] | | | ] | ]; try discriminate.
  now intros [= ->].
Qed.

Lemma ids_read (jobs : list JSValue) (ids : list Z) :
  map integer_id jobs = map Some ids ->
  map_result (fun job => get_prop job "id") jobs
  = inr (map (fun z => JNum (Fin z)) ids).
Proof.
  revert ids. induction jobs as [ | job r IH ]; intros [ | z ids ]; try discriminate.
  - reflexivity.
  - cbn [map]. intros [= Hjob Hr]. cbn [map_result].
    rewrite (integer_id_read _ Hjob), (IH _ Hr). reflexivity.
Qed.

Lemma max_of_integers (ids : list Z) (a : Z) :
  fold_left (fun acc x => num_max acc (ToNumber StringToNumber x))
    (map (fun z => JNum (Fin z)) ids) (Fin a)
  = Fin (fold_left Z.max ids a).
Proof.
  revert a. induction ids as [ | z r IH ]; intros a; [ reflexivity | ].
  cbn [map fold_left ToNumber num_max]. apply IH.
Qed.

Lemma fold_max_bounds (ids : list Z) (a : Z) :
  a <= fold_left Z.max ids a /\ Forall (fun i => i <= fold_left Z.max ids a) ids
  /\ (fold_left Z.max ids a = a \/ In (fold_left Z.max ids a) ids).
Proof.
  revert a. induction ids as [ | z r IH ]; intros a; cbn [fold_left].
  - repeat split; [ lia | constructor | now left ].
  - destruct (IH (Z.max a z)) as (Hle & Hall & Hin).
    repeat split; [ lia | constructor; [ lia | exact Hall ] | ].
    destruct Hin as [Heq | Hin]; [ | right; now right ].
    rewrite Heq. destruct (Z.max_spec a z) as [[_ ->] | [_ ->]];
      [ right; now left | now left ].
Qed.

Lemma greatest_fold_max (z : Z) (ids : list Z) :
  greatest (fold_left Z.max ids z) (z :: ids).
Proof.
  destruct (fold_max_bounds ids z) as (Hle & Hall & Hin). split.
  - destruct Hin as [-> | Hin]; [ now left | now right ].
  - constructor; assumption.
Qed.

(** Line 343 on a collection whose Records have integer ids: the number
    nearest to the greatest id plus 1. *)
Lemma new_job_id_sum (jobs : list JSValue) (ids : list Z) :
  map integer_id jobs = map Some ids ->
  ids <> [] ->
  exists m,
    greatest m ids
    /\ new_job_id StringToNumber (JArr jobs) = inr (JNum (to_double (m + 1))).
Proof.
  intros Hids Hsome.
  unfold new_job_id. cbn [get_prop String.eqb Ascii.eqb Bool.eqb ToNumber num_gt].
  change ("length" =? "length")%string with true. cbn iota.
  cbn [ToNumber num_gt]. unfold array_map. rewrite (ids_read jobs ids Hids).
  destruct ids as [ | z ids ]; [ now destruct Hsome | ].
  destruct jobs as [ | job jobs ]; [ discriminate | ].
  cbn [List.length]. rewrite Nat2Z.inj_succ.
  destruct (0 <? Z.succ (Z.of_nat (List.length jobs))) eqn:Hpos;
    [ | apply Z.ltb_ge in Hpos; lia ].
  exists (fold_left Z.max ids z). split; [ apply greatest_fold_max | ].
  unfold Math_max. cbn [map fold_left ToNumber num_max].
  rewrite max_of_integers. reflexivity.
Qed.

Lemma to_double_exact (z : Z) : - 2 ^ 53 <= z <= 2 ^ 53 -> to_double z = Fin z.
Proof.
  intros Hz. unfold to_double.
  destruct (Z.leb_spec (Z.abs z) (2 ^ 53)) as [_ | H]; [ reflexivity | lia ].
Qed.

(** Line 343 on a collection whose Records have integer ids below 2^53 in
    magnitude, where the addition is exact: the greatest id plus 1, and 1 for
    the empty collection; it differs from every id of the collection. *)
Lemma new_job_id_integers (jobs : list JSValue) (ids : list Z) :
  map integer_id jobs = map Some ids ->
  Forall safe_integer ids ->
  exists n,
    new_job_id StringToNumber (JArr jobs) = inr (JNum (Fin n))
    /\ (ids = [] -> n = 1)
    /\ (ids <> [] -> greatest (n - 1) ids)
    /\ Forall (fun i => i < n) ids
    /\ (NoDup ids -> NoDup (ids ++ [n]))
    /\ - 2 ^ 53 < n <= 2 ^ 53.
Proof.
  intros Hids Hsafe.
  assert (Hlen : List.length jobs = List.length ids).
  { rewrite <- (length_map integer_id jobs), Hids. apply length_map. }
  unfold new_job_id. cbn [get_prop String.eqb Ascii.eqb Bool.eqb ToNumber num_gt].
  change ("length" =? "length")%string with true. cbn iota.
  cbn [ToNumber num_gt]. unfold array_map. rewrite (ids_read jobs ids Hids).
  destruct ids as [ | z ids ].
  - destruct jobs; [ | discriminate ]. exists 1. cbn.
    repeat split; try constructor; try lia; try easy.
  - destruct jobs as [ | job jobs ]; [ discriminate | ].
    cbn [List.length]. rewrite Nat2Z.inj_succ.
    destruct (0 <? Z.succ (Z.of_nat (List.length jobs))) eqn:Hpos;
      [ | apply Z.ltb_ge in Hpos; lia ].
    exists (fold_left Z.max ids z + 1).
    unfold Math_max. cbn [map fold_left ToNumber num_max].
    rewrite max_of_integers. cbn [num_add].
    pose proof (greatest_fold_max z ids) as [Hin Hall].
    assert (Hmax : safe_integer (fold_left Z.max ids z)).
    { rewrite Forall_forall in Hsafe. exact (Hsafe _ Hin). }
    unfold safe_integer in Hmax.
    rewrite to_double_exact by lia.
    assert (Hlt : Forall (fun i => i < fold_left Z.max ids z + 1) (z :: ids)).
    { eapply Forall_impl; [ | exact Hall ]. cbn beta. intros; lia. }
    repeat split; try assumption.
    + discriminate.
    + now replace (fold_left Z.max ids z + 1 - 1) with (fold_left Z.max ids z) by lia.
    + now replace (fold_left Z.max ids z + 1 - 1) with (fold_left Z.max ids z) by lia.
    + intros Hnodup. apply NoDup_app; [ exact Hnodup | repeat constructor; intros [] | ].
      intros i Hi [<- | []]. rewrite Forall_forall in Hlt. specialize (Hlt _ Hi). lia.
    + lia.
    + lia.
Qed.

(** *** The write *)

Lemma jobs_read_array (reply : Result (Blob * Sha)) (l : list JSValue) :
  jobs_read reply = JArr l ->
  exists old,
    l = map of_json old /\
    (forall j sha, reply = inr (WellFormed j, sha) -> j = JsonArr old) /\
    ((forall j sha, reply <> inr (WellFormed j, sha)) -> old = []).
Proof.
  destruct reply as [e | [[j | raw] sha]]; cbn [jobs_read].
  - intros [= <-]. exists [].
    split; [ reflexivity | split; [ discriminate | reflexivity ] ].
  - destruct j; try discriminate. cbn [of_json]. intros [= <-].
    exists items. split; [ reflexivity | split ].
    + now intros j sha' [= <- _].
    + intros H. now destruct (H (JsonArr items) sha).
  - intros [= <-]. exists [].
    split; [ reflexivity | split; [ discriminate | reflexivity ] ].
Qed.

Lemma put_outcome_accepted (t : GithubTick) (file : option Blob) (content : Blob)
    (sha : Sha) (u : unit) :
  fst (put_outcome blob_sha t file content sha) = inr u ->
  snd (put_outcome blob_sha t file content sha) = Some content
  /\ fault t = None
  /\ exists b, file = Some b /\ sha = blob_sha b.
Proof.
  unfold put_outcome. destruct (fault t); [ discriminate | ].
  destruct file as [b | ]; [ | discriminate ].
  destruct (sha =? blob_sha b)%string eqn:Heq; [ | discriminate ].
  intros _. apply String.eqb_eq in Heq. repeat split. now exists b.
Qed.

Lemma put_outcome_refused (t : GithubTick) (file : option Blob) (content : Blob)
    (sha : Sha) (e : JSError) :
  fst (put_outcome blob_sha t file content sha) = inl e ->
  snd (put_outcome blob_sha t file content sha) = file.
Proof.
  unfold put_outcome. destruct (fault t); [ reflexivity | ].
  destruct file as [b | ]; [ | reflexivity ].
  destruct (sha =? blob_sha b)%string; [ discriminate | reflexivity ].
Qed.

(** The runs answered 201. *)
Lemma post_route_created (req : Request) (w : World) (resp : Response) (w' : World) :
  post_route req w = (inr resp, w') ->
  res_status resp = 201 ->
  exists user en l newJob current sha,
    let content := WellFormed (JsonArr (map json_element l ++ [json_element newJob])) in
    authenticated req user
    /\ enriches req w en
    /\ jobs_read (read_reply blob_sha w) = JArr l
    /\ builds StringToNumber req user en (JArr l) newJob
    /\ token_reply blob_sha w = inr (current, sha)
    /\ fst (write_outcome blob_sha w content sha) = inr tt
    /\ resp = respond 201 (created newJob)
    /\ w_log w' = w_log w ++ e_events en
         ++ [EvGithubGet (read_reply blob_sha w);
             EvGithubGet (inr (current, sha));
             EvGithubPut content sha (inr tt)]
    /\ w_file w' = Some content.
Proof.
  intros Hrun Hstatus.
  destruct (post_jobs_route_runs req w) as (resp0 & w0 & Hrun0 & Hcases).
  rewrite Hrun in Hrun0. injection Hrun0 as <- <-.
  destruct Hcases as [[[H | H] _] | (user & Hauth & HR)];
    [ rewrite Hstatus in H; discriminate | rewrite Hstatus in H; discriminate | ].
  inversion HR; subst; try discriminate.
  destruct (fst outcome) as [e | []] eqn:Hout; [ discriminate | ].
  exists user, en, l, newJob, current, sha. cbv zeta. fold content.
  pose proof (put_outcome_accepted _ _ _ _ Hout) as (Hfile & _).
  repeat match goal with |- _ /\ _ => split end;
    try assumption; try reflexivity.
  - now rewrite <- H2.
  - now rewrite H4.
Qed.

(** C9: on every successful append the content written is the collection
    that was read with the new Record as its last element: the Records read
    are written back unchanged and in their order.  The write is the last
    call of the run, and the file then holds that content. *)
Theorem C9_append_at_end (req : Request) (w : World) (resp : Response) (w' : World) :
  post_route req w = (inr resp, w') ->
  res_status resp = 201 ->
  exists enrich old newJob current sha,
    github_events enrich = []
    /\ jobs_read (read_reply blob_sha w) = JArr (map of_json old)
    /\ res_body resp = created newJob
    /\ w_log w' = w_log w ++ enrich
         ++ [EvGithubGet (read_reply blob_sha w);
             EvGithubGet (inr (current, sha));
             EvGithubPut (WellFormed (JsonArr (old ++ [json_element newJob]))) sha (inr tt)]
    /\ w_file w' = Some (WellFormed (JsonArr (old ++ [json_element newJob]))).
Proof.
  intros Hrun Hstatus.
  destruct (post_route_created _ _ Hrun Hstatus)
    as (user & en & l & newJob & current & sha & _ & Hen & Hread & _ & _ & _ & -> & Hlog & Hfile).
  destruct (jobs_read_array _ Hread) as (old & -> & _).
  rewrite json_elements_of_json in Hlog, Hfile.
  destruct Hen as (_ & _ & _ & _ & _ & _ & _ & Hfree).
  exists (e_events en), old, newJob, current, sha.
  repeat split; assumption.
Qed.

(** *** The id of the Record appended *)

Lemma stored_id (body : list (string * JSValue)) (n : Z)
    (careerLink companySummary isSpam userId createdBy : JSValue)
    (createdAt updatedAt : string) :
  integer_id
    (of_json
       (json_element
          (job_literal body (JNum (Fin n)) careerLink companySummary isSpam userId
             createdBy createdAt updatedAt)))
  = Some n.
Proof.
  unfold job_literal.
  match goal with
  | |- context [JObj (?x :: ?r)] => generalize r
  end.
  intros r. reflexivity.
Qed.


(** *** The calls of a run *)

Lemma enriches_events (req : Request) (w : World) (en : Enrichment) :
  enriches req w en -> github_events (e_events en) = [].
Proof. now intros (_ & _ & _ & _ & _ & _ & _ & H). Qed.

(** The calls to GitHub of a run of the route: none, the read alone, the
    read and a failed GET of the sha, or the read, the GET of the sha and
    one PUT with that sha. *)
Lemma post_route_calls (req : Request) (w : World) (resp : Response) (w' : World) :
  post_route req w = (inr resp, w') ->
  exists enrich calls,
    w_log w' = w_log w ++ enrich ++ calls
    /\ github_events enrich = []
    /\ (calls = []
        \/ calls = [EvGithubGet (read_reply blob_sha w)]
        \/ (exists e,
              calls = [EvGithubGet (read_reply blob_sha w); EvGithubGet (inl e)]
              /\ resp = respond 500 (create_failure e))
        \/ (exists current sha content outcome,
              calls = [EvGithubGet (read_reply blob_sha w);
                       EvGithubGet (inr (current, sha));
                       EvGithubPut content sha outcome]
              /\ token_reply blob_sha w = inr (current, sha)
              /\ resp = match outcome with
                        | inl e => respond 500 (create_failure e)
                        | inr _ => resp
                        end)).
Proof.
  intros Hrun.
  destruct (post_jobs_route_runs req w) as (resp0 & w0 & Hrun0 & Hcases).
  rewrite Hrun in Hrun0. injection Hrun0 as <- <-.
  destruct Hcases as [[_ ->] | (user & Hauth & HR)].
  { exists [], []. rewrite !app_nil_r. split_all; auto. }
  inversion HR; subst.
  - exists [], []. rewrite !app_nil_r. split_all; auto.
  - exists [], []. rewrite !app_nil_r. split_all; auto.
  - exists (e_events en), [EvGithubGet (read_reply blob_sha w)].
    split_all; eauto using enriches_events.
  - exists (e_events en),
      [EvGithubGet (read_reply blob_sha w); EvGithubGet (inl e)].
    split_all; eauto using enriches_events.
    + now rewrite <- H2.
    + right. right. left. now exists e.
  - exists (e_events en),
      [EvGithubGet (read_reply blob_sha w); EvGithubGet (inr (current, sha));
       EvGithubPut content sha (fst outcome)].
    split_all; eauto using enriches_events.
    + now rewrite <- H2.
    + right. right. right. exists current, sha, content, (fst outcome).
      split_all; auto. now destruct (fst outcome).
Qed.

Lemma not_github_in (evs : list Event) (ev : Event) :
  github_events evs = [] -> In ev evs -> is_github ev = false.
Proof.
  intros Hnone Hin. destruct (is_github ev) eqn:Hev; [ | reflexivity ].
  assert (Hin' : In ev (github_events evs)) by (apply filter_In; auto).
  rewrite Hnone in Hin'. destruct Hin'.
Qed.

Lemma first_read_token_skip (enrich evs : list Event) :
  github_events enrich = [] ->
  first_read_token (enrich ++ evs) = first_read_token evs.
Proof.
  induction enrich as [ | ev r IH ]; [ reflexivity | ].
  unfold github_events. cbn [filter].
  destruct ev; cbn [is_github]; try discriminate; exact IH.
Qed.


Lemma no_put_without_github (evs : list Event) :
  github_events evs = [] -> filter is_put evs = [].
Proof.
  induction evs as [ | ev r IH ]; [ reflexivity | ].
  unfold github_events. cbn [filter].
  destruct ev; cbn [is_github is_put]; try discriminate; exact IH.
Qed.


(** *** What an append keeps *)

Lemma read_reply_file (w : World) (b : Blob) (sha : Sha) :
  read_reply blob_sha w = inr (b, sha) -> file_at_read w = Some b.
Proof.
  unfold read_reply, get_reply.
  destruct (fault (tick 0 w)); [ discriminate | ].
  destruct (file_at_read w); [ | discriminate ].
  now intros [= -> _].
Qed.


(** *** Enrichment that fails *)

Lemma failed_hd (A : Type) (d : JSError + A) (l : list (Result A)) :
  failed d -> Forall (@failed A) l -> failed (hd d l).
Proof. intros Hd [ | x r Hx _ ]; assumption. Qed.

Lemma failed_tl (A : Type) (l : list (Result A)) :
  Forall (@failed A) l -> Forall (@failed A) (tl l).
Proof. intros [ | x r _ Hr ]; [ constructor | exact Hr ]. Qed.

(** With a page fetch or a model call that fails, the summary is [null]. *)
Lemma scrape_absorbs (url : JSValue) (w : World) :
  Forall (@failed string) (w_pages w) \/ Forall (@failed string) (w_model w) ->
  exists w1,
    scrapeAndSummarizeCareerPage url w = (inr JNull, w1)
    /\ (w_model w1 = w_model w \/ w_model w1 = tl (w_model w)).
Proof.
  intros Hfail.
  unfold scrapeAndSummarizeCareerPage, try_catch.
  destruct (truthy url); cbn [negb];
    [ | eexists; split; [ reflexivity | now left ] ].
  destruct url; try (eexists; split; [ reflexivity | now left ]).
  destruct (startsWith s "http"); cbn [negb];
    [ | eexists; split; [ reflexivity | now left ] ].
  unfold bind at 1. unfold page_get at 1.
  set (w1 := log_event _ (set_pages _ w)).
  destruct (hd (inl NetworkError) (w_pages w)) as [e | text] eqn:Hpage;
    [ eexists; split; [ reflexivity | now left ] | ].
  match goal with
  | |- context [if ?c then _ else _] => destruct c
  end; [ eexists; split; [ reflexivity | now left ] | ].
  assert (Hmodel : failed (hd (inl (ServiceError "generateContent failed")) (w_model w1))).
  { destruct Hfail as [Hp | Hm].
    - pose proof (failed_hd (inl NetworkError) I Hp) as H. now rewrite Hpage in H.
    - now apply failed_hd. }
  unfold bind at 1. unfold generateContent at 1.
  destruct (hd (inl (ServiceError "generateContent failed")) (w_model w1))
    as [e | summary]; [ | destruct Hmodel ].
  eexists; split; [ reflexivity | now right ].
Qed.

(** With a model call that fails, the verdict is [false]. *)
Lemma detectSpam_absorbs (details : JSValue) (w : World) :
  Forall (@failed string) (w_model w) ->
  exists w1, detectSpamJob details w = (inr (JBool false), w1).
Proof.
  intros Hfail.
  pose proof (failed_hd (inl (ServiceError "generateContent failed")) I Hfail) as H.
  unfold detectSpamJob, try_catch, bind, generateContent.
  destruct (hd (inl (ServiceError "generateContent failed")) (w_model w));
    [ | destruct H ].
  eexists. reflexivity.
Qed.

Lemma ids_of_objects (jobs : list JSValue) :
  forallb is_object jobs = true ->
  exists ids, map_result (fun job => get_prop job "id") jobs = inr ids.
Proof.
  induction jobs as [ | job r IH ]; [ now exists [] | ].
  cbn [forallb]. intros [Hjob Hr]%andb_prop.
  destruct (IH Hr) as (ids & Hids). cbn [map_result]. rewrite Hids.
  destruct job; try discriminate. cbn [get_prop]. eexists. reflexivity.
Qed.

Lemma new_job_id_of_objects (jobs : list JSValue) :
  forallb is_object jobs = true ->
  exists id, new_job_id StringToNumber (JArr jobs) = inr id.
Proof.
  intros Hjobs. unfold new_job_id. cbn [get_prop].
  change ("length" =? "length")%string with true. cbn iota.
  destruct (num_gt _ _); [ | now eexists ].
  unfold array_map. destruct (ids_of_objects _ Hjobs) as (ids & ->).
  now eexists.
Qed.

Lemma or_prop_of_object (a o : JSValue) (name : string) :
  is_object o = true -> exists v, or_prop a o name = inr v.
Proof.
  intros Ho. unfold or_prop. destruct (truthy a); [ now eexists | ].
  destruct o; try discriminate. cbn [get_prop]. now eexists.
Qed.

(** What the enrichment comes to when the calls to the model fail. *)
Lemma enriches_failing (req : Request) (w : World) (en : Enrichment) :
  enriches req w en ->
  Forall (@failed string) (w_model w) ->
  e_summary en = JNull /\ e_spam en = false.
Proof.
  intros (_ & _ & w1 & w2 & Hsum & Hspam & _) Hmodel.
  assert (H1 : e_summary en = JNull /\ Forall (@failed string) (w_model w1)).
  { destruct (truthy (e_careerLink en)).
    - destruct (scrape_absorbs (e_careerLink en) w (or_intror Hmodel))
        as (w1' & Hs & Hm).
      rewrite Hs in Hsum. injection Hsum as <- <-. split; [ reflexivity | ].
      destruct Hm as [-> | ->]; [ exact Hmodel | now apply failed_tl ].
    - injection Hsum as <- <-. now split. }
  destruct H1 as (Hnull & Hmodel1). split; [ exact Hnull | ].
  destruct (detectSpam_absorbs (spam_details (req_body req)) w1 Hmodel1) as (w2' & Hd).
  rewrite Hd in Hspam. now injection Hspam as <- _.
Qed.

(** C6: the enrichment functions absorb their failures:
    [scrapeAndSummarizeCareerPage] and [detectSpamJob] never throw, and
    return [null] and [false] when their calls fail; and a Record written
    while the model fails has [companySummary] [null] and [isSpam] [false].
    But the append does not succeed: as the server runs (no [careerLink] on
    the global object) the handler throws at line 320, before it calls either
    function, and every authenticated request with the three required fields
    is answered 500 with the world as it was, whatever the career page and
    the model would answer. *)
Theorem C6_enrichment_absorbed_append_fails :
  (forall url w,
     (exists v w1, scrapeAndSummarizeCareerPage url w = (inr v, w1))
     /\ (Forall (@failed string) (w_pages w) \/ Forall (@failed string) (w_model w) ->
         fst (scrapeAndSummarizeCareerPage url w) = inr JNull))
  /\ (forall details w,
        (exists b w1, detectSpamJob details w = (inr (JBool b), w1))
        /\ (Forall (@failed string) (w_model w) ->
            fst (detectSpamJob details w) = inr (JBool false)))
  /\ (forall req w resp w',
        post_route req w = (inr resp, w') ->
        res_status resp = 201 ->
        Forall (@failed string) (w_model w) ->
        exists newJob,
          res_body resp = created newJob
          /\ prop_of newJob "companySummary" = JNull
          /\ prop_of newJob "isSpam" = JBool false)
  /\ (forall req user w,
        authenticated req user ->
        fields_missing (req_body req) = false ->
        assoc "careerLink" (w_global w) = None ->
        post_route req w
        = (inr (respond 500 (create_failure (ReferenceError "careerLink"))), w)).
Proof.
  split; [ | split; [ | split ] ].
  - intros url w. split.
    + destruct (scrape_returns url w) as (v & w1 & H & _). now exists v, w1.
    + intros Hfail. destruct (scrape_absorbs url w Hfail) as (w1 & -> & _).
      reflexivity.
  - intros details w. split.
    + destruct (detectSpam_returns details w) as (b & w1 & H & _). now exists b, w1.
    + intros Hfail. destruct (detectSpam_absorbs details w Hfail) as (w1 & ->).
      reflexivity.
  - intros req w resp w' Hrun Hstatus Hmodel.
    destruct (post_route_created _ _ Hrun Hstatus)
      as (user & en & l & newJob & current & sha & _ & Hen & _ & Hbuilds & _ & _
          & -> & _ & _).
    destruct (enriches_failing Hen Hmodel) as (Hnull & Hspam).
    destruct Hbuilds as (id & userId & createdBy & createdAt & updatedAt & _ & _ & _ & ->).
    eexists. split; [ reflexivity | ].
    rewrite Hnull, Hspam. split; reflexivity.
  - intros req user w Hauth Hvalid Hfree.
    rewrite (post_jobs_route_authenticated w Hauth).
    unfold post_jobs, try_catch. cbv zeta. rewrite Hvalid.
    unfold bind, free_variable. rewrite Hfree. reflexivity.
Qed.

End Theory.

(** ** The theorems at work on sample runs *)

Lemma C8_missing_field_rejected_witness :
  post_jobs_route Sample.sha Sample.jwt Sample.number
    (Sample.request Sample.signed
       [("title", JStr ""); ("description", JStr "d"); ("companyName", JStr "C")] [])
    Sample.w_quiet
  = (inr (respond 400
            (JObj [("error",
                    JStr "Required fields missing. Title, description, and company name are required.")])),
     Sample.w_quiet).
Proof.
  apply C8_missing_field_rejected with (user := Sample.user).
  - exists "signed"%string. repeat split.
  - left. right. reflexivity.
Defined.

Lemma C3_careerLink_unbound_witness :
  declared "careerLink" = false /\
  Sample.run_post Sample.w_unbound
  = (inr (respond 500
            (JObj [("error", JStr "Failed to create job");
                   ("details", JStr "careerLink is not defined")])),
     Sample.w_unbound).
Proof.
  apply C3_careerLink_unbound with (user := Sample.user);
    [ exists "signed"%string; repeat split | reflexivity .. ].
Defined.

Lemma C10_get_jobs_by_user_witness :
  fst (get_jobs_route Sample.sha
         (Sample.request None [] [("userId", JStr "42")])
         (Sample.world [] (Some Sample.two_records) []))
  = inr (respond 200 (JArr [of_json Sample.record1])).
Proof.
  exact (proj1 (@C10_get_jobs_by_user Sample.sha Sample.jwt
                  (Sample.request None [] [("userId", JStr "42")])
                  (Sample.world [] (Some Sample.two_records) [])
                  [of_json Sample.record1; of_json Sample.record2]
                  eq_refl eq_refl)).
Defined.


Lemma C9_append_at_end_witness :
  exists enrich old newJob current sha,
    github_events enrich = []
    /\ jobs_read (read_reply Sample.sha Sample.w_quiet) = JArr (map of_json old)
    /\ res_body (Sample.answer (Sample.run_post Sample.w_quiet)) = created newJob
    /\ w_log (snd (Sample.run_post Sample.w_quiet))
       = w_log Sample.w_quiet ++ enrich
         ++ [EvGithubGet (read_reply Sample.sha Sample.w_quiet);
             EvGithubGet (inr (current, sha));
             EvGithubPut (WellFormed (JsonArr (old ++ [json_element newJob]))) sha (inr tt)]
    /\ w_file (snd (Sample.run_post Sample.w_quiet))
       = Some (WellFormed (JsonArr (old ++ [json_element newJob]))).
Proof.
  apply (@C9_append_at_end Sample.sha Sample.jwt Sample.number Sample.post
           Sample.w_quiet (Sample.answer (Sample.run_post Sample.w_quiet))
           (snd (Sample.run_post Sample.w_quiet))).
  - vm_compute. reflexivity.
  - vm_compute. reflexivity.
Defined.




Lemma C6_enrichment_absorbed_append_fails_witness :
  Forall (@failed string) (w_pages Sample.w_services_down)
  /\ Forall (@failed string) (w_model Sample.w_services_down)
  /\ Sample.run_post Sample.w_services_down
     = (inr (respond 500
               (JObj [("error", JStr "Failed to create job");
                      ("details", JStr "careerLink is not defined")])),
        Sample.w_services_down).
Proof.
  split; [ repeat constructor | ]. split; [ repeat constructor | ].
  apply (proj2 (proj2 (proj2 (C6_enrichment_absorbed_append_fails
                                Sample.sha Sample.jwt Sample.number)))
           Sample.post Sample.user Sample.w_services_down).
  - exists "signed"%string. repeat split.
  - reflexivity.
  - reflexivity.
Defined.

(** ** What the append would do with [careerLink] bound

    The runs below start in worlds whose global object has a [careerLink]
    property, which nothing in server.js gives it: they show what the code
    after line 320 does, not what a request can obtain. *)

(** The read of the append fails, the handler takes the collection as
    empty, and the append that is answered 201 has replaced the file. *)
Lemma bound_read_failure_loses_records :
  ~ append_keeps_records Sample.sha Sample.jwt Sample.number Sample.post Sample.w_read_fails.
Proof.
  intros H.
  specialize (H (Sample.answer (Sample.run_post Sample.w_read_fails))
                (snd (Sample.run_post Sample.w_read_fails))
                ltac:(vm_compute; reflexivity) ltac:(vm_compute; reflexivity)
                Sample.record1 (or_introl eq_refl)).
  vm_compute in H. destruct H as [H | []]. discriminate H.
Qed.

(** Another client commits between the read and the GET of the sha; the
    PUT carries the sha of that commit and is accepted. *)
Lemma bound_token_is_of_the_second_get :
  ~ write_uses_read_token (w_log (snd (Sample.run_post Sample.w_commit_before_token))).
Proof.
  intros H.
  specialize (H (WellFormed (JsonArr [Sample.record1; Sample.new_record 2]))
                (Sample.sha Sample.two_records) (inr tt)
                ltac:(vm_compute; do 4 right; left; reflexivity)).
  vm_compute in H. discriminate H.
Qed.

(** Another client commits between the GET of the sha and the PUT; the PUT
    is rejected with 409, nothing follows it, and the caller is answered 500
    with the message of the 409. *)
Lemma bound_conflict_reaches_the_caller :
  ~ conflict_handled (w_log (snd (Sample.run_post Sample.w_commit_before_write)))
      (Sample.answer (Sample.run_post Sample.w_commit_before_write)).
Proof.
  intros H.
  specialize (H (firstn 4 (w_log (snd (Sample.run_post Sample.w_commit_before_write))))
                (WellFormed (JsonArr [Sample.record1; Sample.new_record 2]))
                (Sample.sha (WellFormed (JsonArr [Sample.record1]))) []
                ltac:(vm_compute; reflexivity)).
  destruct H as [H | H]; [ now apply H | apply H; vm_compute; reflexivity ].
Qed.

(** Line 343 when the greatest id is 2^53: the sum is rounded back to 2^53,
    the id that Record has. *)
Lemma bound_id_is_rounded :
  new_job_id Sample.number (JArr [JObj [("id", JNum (Fin (2 ^ 53)))]])
  = inr (JNum (Fin (2 ^ 53))).
Proof. vm_compute. reflexivity. Qed.

(** ** Where the routes depart from the design document *)

(** C5: a content that does not parse, and a call that fails, both give the
    empty array and no error. *)
Lemma C5_failures_read_as_empty :
  ~ readAll_reports Sample.sha Sample.w_malformed
  /\ ~ readAll_reports Sample.sha Sample.w_down
  /\ fst (readJobsFromGithub Sample.sha Sample.w_malformed) = inr (JArr [])
  /\ fst (readJobsFromGithub Sample.sha Sample.w_down) = inr (JArr []).
Proof.
  split; [ | split; [ | split; reflexivity ] ].
  - intros (H & _). exact (H "not json"%string eq_refl eq_refl).
  - intros (_ & H & _). exact (H NetworkError eq_refl).
Qed.

(** C10: with an empty [userId] parameter the route answers with all the
    Records, not with those whose [userId] is the empty string. *)
Lemma C10_empty_userId_returns_all :
  ~ filters_by_user Sample.sha
      (Sample.request None [] [("userId", JStr "")])
      (Sample.world [] Sample.one_record []).
Proof.
  intros H.
  specialize (H (JStr "") [of_json Sample.record1] eq_refl eq_refl).
  vm_compute in H. discriminate H.
Qed.

(** ** Further properties of the job server *)

Section MoreTheory.

Variable blob_sha : Blob -> Sha.
Variable jwt_verify : string -> option JSValue.
Variable StringToNumber : string -> JSNumber.
Variable parseInt : string -> JSNumber.

(** X1: [authenticateToken] lets a request through exactly when it carries a
    token that verifies, and then hands the payload to the handler.
    Otherwise the handler is not run and nothing is called: the answer is
    401 when there is no token (no header, or no second word in it) and 403
    when the token does not verify. *)
Theorem X1_authenticateToken_gate (req : Request) (next : JSValue -> M Response)
    (w : World) :
  (forall user,
     authenticated_as jwt_verify req user ->
     authenticateToken jwt_verify req next w = next user w)
  /\ ((forall user, ~ authenticated_as jwt_verify req user) ->
      exists resp,
        authenticateToken jwt_verify req next w = (inr resp, w)
        /\ (res_status resp = 401 \/ res_status resp = 403)
        /\ (res_status resp = 403 <->
            exists token, bearer_token req = Some token /\ truthy (JStr token) = true)).
Proof.
  split.
  - intros user (token & Hb & Ht & Hv).
    unfold authenticateToken. now rewrite Hb, Ht, Hv.
  - intros Hnone. unfold authenticateToken.
    destruct (bearer_token req) as [token | ] eqn:Hb.
    + destruct (truthy (JStr token)) eqn:Ht; cbn [negb].
      * destruct (jwt_verify token) as [user | ] eqn:Hv.
        { exfalso. apply (Hnone user). now exists token. }
        eexists. split; [ reflexivity | ]. split; [ now right | ].
        split; [ intros _; now exists token | reflexivity ].
      * eexists. split; [ reflexivity | ]. split; [ now left | ].
        split; [ discriminate | ].
        intros (token' & [= <-] & Ht'). congruence.
    + eexists. split; [ reflexivity | ]. split; [ now left | ].
      split; [ discriminate | ]. now intros (token' & [=] & _).
Qed.

(** X2: [scrapeAndSummarizeCareerPage] fetches nothing unless its argument
    is a string that starts with "http": for any other value it returns
    [null] and makes no call. *)
Theorem X2_scrape_needs_http_url (url : JSValue) (w : World) :
  (forall s, url = JStr s -> startsWith s "http" = false) ->
  scrapeAndSummarizeCareerPage url w = (inr JNull, w).
Proof.
  intros Hurl. unfold scrapeAndSummarizeCareerPage, try_catch.
  destruct (truthy url); cbn [negb]; [ | reflexivity ].
  destruct url; try reflexivity.
  now rewrite (Hurl s eq_refl).
Qed.

Lemma substring_length_le (n : nat) (s : string) :
  (String.length (substring 0 n s) <= n)%nat.
Proof.
  revert s. induction n as [ | n IH ]; intros [ | c s ]; cbn; try lia.
  specialize (IH s). lia.
Qed.

(** X3: the model is asked for a summary only after a page was fetched whose
    cleaned text has at least 50 characters, and the prompt carries the
    first 5000 characters of that text at most. *)
Theorem X3_scrape_prompt_bounded (url : JSValue) (w : World) (evs : list Event)
    (text : string) (reply : Result string) :
  w_log (snd (scrapeAndSummarizeCareerPage url w)) = w_log w ++ evs ->
  In (EvGenerate (SummaryPrompt text) reply) evs ->
  (String.length text <= 5000)%nat
  /\ exists page,
       hd (inl NetworkError) (w_pages w) = inr page
       /\ (50 <= String.length page)%nat
       /\ text = substring 0 5000 page.
Proof.
  unfold scrapeAndSummarizeCareerPage, try_catch.
  assert (Hnone : forall l : list Event, l = l ++ evs -> evs = []).
  { intros l H. rewrite <- (app_nil_r l) in H at 1. now apply app_inv_head in H. }
  destruct (truthy url); cbn [negb];
    [ | cbn [snd ret]; intros H%Hnone; now subst ].
  destruct url; try (cbn [snd ret throw]; intros H%Hnone; now subst).
  destruct (startsWith s "http"); cbn [negb];
    [ | cbn [snd ret]; intros H%Hnone; now subst ].
  unfold bind at 1. unfold page_get at 1.
  destruct (hd (inl NetworkError) (w_pages w)) as [e | page] eqn:Hpage.
  { cbn [snd ret log_event w_log set_pages].
    intros H%app_inv_head. subst evs. intros [[=] | []]. }
  destruct (Z.of_nat (String.length page) <? 50) eqn:Hlen;
    [ rewrite orb_true_r | rewrite orb_false_r ].
  { cbn [snd ret log_event w_log set_pages].
    intros H%app_inv_head. subst evs. intros [[=] | []]. }
  destruct (negb (truthy (JStr page))).
  { cbn [snd ret log_event w_log set_pages].
    intros H%app_inv_head. subst evs. intros [[=] | []]. }
  unfold bind at 1. unfold generateContent at 1.
  match goal with
  | |- context [hd ?d (w_model ?x)] => destruct (hd d (w_model x)) as [e | summary]
  end.
  - cbn [snd ret log_event w_log set_pages set_model]. rewrite <- app_assoc.
    intros H%app_inv_head. subst evs.
    intros [[=] | [[= <- _] | []]].
    apply Z.ltb_ge in Hlen.
    split; [ apply substring_length_le | ]. exists page. repeat split. lia.
  - apply Z.ltb_ge in Hlen.
    destruct (negb (truthy (JStr summary)));
      cbn [snd ret log_event w_log set_pages set_model]; rewrite <- app_assoc;
      intros H%app_inv_head; subst evs;
      (intros [[=] | [[= <- _] | []]];
       split; [ apply substring_length_le | ]; exists page; repeat split; lia).
Qed.

(** X4: [scrapeAndSummarizeCareerPage] returns [null] or a string that is
    not empty, and such a string is the reply the model gave in that call. *)
Theorem X4_scrape_result (url : JSValue) (w : World) :
  fst (scrapeAndSummarizeCareerPage url w) = inr JNull
  \/ exists summary prompt,
       fst (scrapeAndSummarizeCareerPage url w) = inr (JStr summary)
       /\ summary <> ""%string
       /\ exists before,
            w_log (snd (scrapeAndSummarizeCareerPage url w))
            = w_log w ++ before ++ [EvGenerate prompt (inr summary)].
Proof.
  destruct (scrapeAndSummarizeCareerPage url w) as [r w1] eqn:E. cbn [fst snd].
  unfold scrapeAndSummarizeCareerPage, try_catch in E.
  destruct (truthy url); cbn [negb] in E; [ | injection E as <- <-; now left ].
  destruct url; try (injection E as <- <-; now left).
  destruct (startsWith s "http"); cbn [negb] in E;
    [ | injection E as <- <-; now left ].
  unfold bind at 1 in E. unfold page_get at 1 in E.
  destruct (hd (inl NetworkError) (w_pages w)) as [e | page];
    [ injection E as <- <-; now left | ].
  match type of E with
  | context [if ?c then _ else _] => destruct c
  end; [ injection E as <- <-; now left | ].
  unfold bind at 1 in E. unfold generateContent at 1 in E.
  match type of E with
  | context [hd ?d (w_model ?x)] => destruct (hd d (w_model x)) as [e | summary]
  end; [ injection E as <- <-; now left | ].
  destruct (truthy (JStr summary)) eqn:Hs; cbn [negb] in E;
    injection E as <- <-; [ | now left ].
  right. exists summary. eexists. split; [ reflexivity | ]. split.
  - intros ->. discriminate.
  - eexists [_]. cbn [log_event w_log set_pages set_model].
    now rewrite <- app_assoc.
Qed.

(** *** What a POST leaves behind *)

Lemma get_reply_absent (t : GithubTick) (reply : Blob * Sha) :
  get_reply blob_sha t None <> inr reply.
Proof. unfold get_reply. now destruct (fault t). Qed.

(** X6: POST /api/jobs cannot create data/jobs.json.  When the file does not
    exist (and no other client creates it meanwhile) the request is never
    answered 201 and the file still does not exist afterwards: the GET of
    [updateGithubJobs] is answered 404 before any PUT. *)
Theorem X6_post_cannot_create_the_file (req : Request) (w : World)
    (resp : Response) (w' : World) :
  post_jobs_route blob_sha jwt_verify StringToNumber req w = (inr resp, w') ->
  w_file w = None ->
  others (tick 0 w) = None ->
  others (tick 1 w) = None ->
  res_status resp <> 201
  /\ w_file w' = None
  /\ filter is_put (skipn (List.length (w_log w)) (w_log w')) = [].
Proof.
  intros Hrun Hfile H0 H1.
  assert (Hread : file_at_read w = None).
  { unfold file_at_read, after_others. now rewrite H0. }
  assert (Htoken : file_at_token w = None).
  { unfold file_at_token, after_others. now rewrite H1. }
  assert (Hskip : forall l evs : list Event, skipn (List.length l) (l ++ evs) = evs).
  { intros l evs. rewrite skipn_app, skipn_all, Nat.sub_diag. reflexivity. }
  destruct (post_jobs_route_runs blob_sha jwt_verify StringToNumber req w)
    as (resp0 & w0 & Hrun0 & Hcases).
  rewrite Hrun in Hrun0. injection Hrun0 as <- <-.
  destruct Hcases as [[Hs Hw] | (user & _ & HR)].
  { rewrite Hw.
    split; [ destruct Hs as [-> | ->]; discriminate | ]. split; [ exact Hfile | ].
    rewrite <- (app_nil_r (w_log w)) at 2. now rewrite Hskip. }
  inversion HR; subst.
  - split; [ discriminate | ]. split; [ assumption | ].
    match goal with
    | |- context [skipn (List.length ?l) ?l] => rewrite <- (app_nil_r l) at 2
    end. now rewrite Hskip.
  - split; [ discriminate | ]. split; [ assumption | ].
    match goal with
    | |- context [skipn (List.length ?l) ?l] => rewrite <- (app_nil_r l) at 2
    end. now rewrite Hskip.
  - split; [ discriminate | ]. split; [ congruence | ].
    match goal with
    | Hlog : w_log w' = _, Hen : enriches _ _ _ |- _ =>
        rewrite Hlog, Hskip, filter_app,
          (no_put_without_github _ (enriches_events Hen))
    end. reflexivity.
  - split; [ discriminate | ]. split; [ congruence | ].
    match goal with
    | Hlog : w_log w' = _, Hen : enriches _ _ _ |- _ =>
        rewrite Hlog, Hskip, filter_app,
          (no_put_without_github _ (enriches_events Hen))
    end. reflexivity.
  - exfalso.
    match goal with
    | Ht : token_reply _ _ = inr _ |- _ =>
        unfold token_reply in Ht; rewrite Htoken in Ht;
        exact (@get_reply_absent _ _ Ht)
    end.
Qed.

(** X7: a POST /api/jobs that is not answered 201 leaves data/jobs.json as
    it was, whatever made it fail (a missing field, the authentication, an
    exception, a failed GET, a rejected or failed PUT), when no other client
    commits meanwhile. *)
Theorem X7_failed_post_leaves_the_file (req : Request) (w : World)
    (resp : Response) (w' : World) :
  post_jobs_route blob_sha jwt_verify StringToNumber req w = (inr resp, w') ->
  (forall n, (n < 3)%nat -> others (tick n w) = None) ->
  res_status resp <> 201 ->
  w_file w' = w_file w.
Proof.
  intros Hrun Hquiet Hstatus.
  assert (Hread : file_at_read w = w_file w).
  { unfold file_at_read, after_others. now rewrite (Hquiet 0%nat ltac:(lia)). }
  assert (Htoken : file_at_token w = w_file w).
  { unfold file_at_token, after_others. now rewrite (Hquiet 1%nat ltac:(lia)). }
  assert (Hwrite : file_at_write w = w_file w).
  { unfold file_at_write, after_others. now rewrite (Hquiet 2%nat ltac:(lia)). }
  destruct (post_jobs_route_runs blob_sha jwt_verify StringToNumber req w)
    as (resp0 & w0 & Hrun0 & Hcases).
  rewrite Hrun in Hrun0. injection Hrun0 as <- <-.
  destruct Hcases as [[_ Hw] | (user & _ & HR)]; [ now rewrite Hw | ].
  inversion HR; subst; try reflexivity; try congruence.
  destruct (fst outcome) as [e | u] eqn:Hout; [ | now destruct Hstatus ].
  match goal with
  | Hf : w_file w' = snd outcome |- _ => rewrite Hf
  end.
  subst outcome. unfold write_outcome in *.
  rewrite (put_outcome_refused _ _ _ _ _ Hout). exact Hwrite.
Qed.

(** *** The Record that is written *)

Lemma or_prop_value (a o : JSValue) (name : string) (v : JSValue) :
  (name =? "length")%string = false ->
  or_prop a o name = inr v ->
  v = if truthy a then a else prop_of o name.
Proof.
  intros Hname. unfold or_prop. destruct (truthy a); [ now intros [= <-] | ].
  destruct o; cbn [get_prop prop_of]; try discriminate;
    rewrite ?Hname; now intros [= <-].
Qed.

(** X8: in the Record of a POST answered 201, [userId] and [createdBy] are
    the values the body gives when these are truthy, and otherwise the
    [userId] and the [username] of the token's payload. *)
Theorem X8_attribution_defaults (req : Request) (user : JSValue) (w : World)
    (resp : Response) (w' : World) :
  post_jobs_route blob_sha jwt_verify StringToNumber req w = (inr resp, w') ->
  res_status resp = 201 ->
  authenticated_as jwt_verify req user ->
  exists newJob,
    res_body resp = created newJob
    /\ prop_of newJob "userId"
       = (if truthy (field "userId" (req_body req)) then field "userId" (req_body req)
          else prop_of user "userId")
    /\ prop_of newJob "createdBy"
       = (if truthy (field "createdBy" (req_body req))
          then field "createdBy" (req_body req)
          else prop_of user "username").
Proof.
  intros Hrun Hstatus (token & Hb & _ & Hv).
  destruct (post_route_created blob_sha jwt_verify StringToNumber _ _ Hrun Hstatus)
    as (user' & en & l & newJob & current & sha & (token' & Hb' & _ & Hv')
        & _ & _ & Hbuilds & _ & _ & -> & _).
  assert (user' = user) as -> by congruence.
  destruct Hbuilds as (id & userId & createdBy & createdAt & updatedAt & _ & Hu & Hc & ->).
  exists (job_literal (req_body req) id (e_careerLink en) (e_summary en)
            (JBool (e_spam en)) userId createdBy createdAt updatedAt).
  split; [ reflexivity | ].
  apply or_prop_value in Hu; [ | reflexivity ].
  apply or_prop_value in Hc; [ | reflexivity ].
  split; [ exact Hu | exact Hc ].
Qed.

(** The property [name] of a parsed JSON object. *)
Lemma stringify_lookup (props : list (string * JSValue)) (name : string) :
  NoDup (map fst props) ->
  match to_json (JObj props) with
  | Some (JsonObj written) => assoc name written
  | _ => None
  end
  = match assoc name props with
    | Some v => to_json v
    | None => None
    end.
Proof.
  cbn [to_json]. induction props as [ | [k v] r IH ]; [ reflexivity | ].
  cbn [map fst]. intros Hnodup. inversion Hnodup as [ | ? ? Hk Hr ]; subst.
  specialize (IH Hr). cbn [flat_map snd fst assoc].
  destruct (name =? k)%string eqn:Hname.
  - apply String.eqb_eq in Hname. subst k.
    destruct (to_json v) as [j | ]; cbn [app assoc].
    + now rewrite String.eqb_refl.
    + rewrite IH.
      destruct (assoc name r) as [v' | ] eqn:Hin; [ | reflexivity ].
      exfalso. apply Hk. clear - Hin.
      induction r as [ | [k' x] r IHr ]; [ discriminate | ].
      cbn [assoc] in Hin. cbn [map fst].
      destruct (name =? k')%string eqn:E;
        [ apply String.eqb_eq in E; now left | right; now apply IHr ].
  - destruct (to_json v) as [j | ]; cbn [app assoc]; rewrite ?Hname; exact IH.
Qed.

Lemma job_literal_keys (body : list (string * JSValue))
    (id careerLink companySummary isSpam userId createdBy : JSValue)
    (createdAt updatedAt : string) :
  exists props,
    job_literal body id careerLink companySummary isSpam userId createdBy
      createdAt updatedAt = JObj props
    /\ NoDup (map fst props)
    /\ assoc "companySummary" props = Some (js_or companySummary JNull)
    /\ forall name, In name optional_fields -> assoc name props = Some (field name body).
Proof.
  eexists. split; [ reflexivity | ]. split; [ | split ].
  - cbn [map fst].
    repeat (constructor;
            [ cbn [In]; intros H;
              repeat (destruct H as [H | H]; [ discriminate H | ]); exact H | ]).
    constructor.
  - reflexivity.
  - intros name Hin. cbn [optional_fields In] in Hin.
    repeat (destruct Hin as [<- | Hin]; [ reflexivity | ]). destruct Hin.
Qed.

(** X9: the Record written for a new job has exactly the properties of
    [newJob] whose value is not [undefined]: an optional field the request
    does not carry is left out of the file (it is not written as [null]),
    while [companySummary] is always written. *)
Theorem X9_stored_record_fields (body : list (string * JSValue))
    (id careerLink companySummary isSpam userId createdBy : JSValue)
    (createdAt updatedAt : string) :
  let newJob := job_literal body id careerLink companySummary isSpam userId
                  createdBy createdAt updatedAt in
  (forall name, json_field name (json_element newJob) = to_json (prop_of newJob name))
  /\ (forall name, In name optional_fields ->
        json_field name (json_element newJob) = to_json (field name body))
  /\ json_field "companySummary" (json_element newJob) <> None.
Proof.
  intros newJob.
  destruct (job_literal_keys body id careerLink companySummary isSpam userId
              createdBy createdAt updatedAt) as (props & Hprops & Hnodup & Hsummary & Hopt).
  fold newJob in Hprops.
  assert (Hall : forall name,
             json_field name (json_element newJob) = to_json (prop_of newJob name)).
  { intros name. rewrite Hprops. unfold json_element.
    pose proof (stringify_lookup props name Hnodup) as H.
    cbn [to_json] in H |- *. cbn [json_field]. rewrite H.
    cbn [prop_of]. unfold field. now destruct (assoc name props). }
  split; [ exact Hall | ]. split.
  - intros name Hin. rewrite Hall, Hprops. cbn [prop_of]. unfold field at 1.
    now rewrite (Hopt name Hin).
  - rewrite Hall, Hprops. cbn [prop_of]. unfold field. rewrite Hsummary.
    unfold js_or. destruct (truthy companySummary) eqn:Ht; [ | discriminate ].
    destruct companySummary as [ | | b | [ | | ] | | | ]; discriminate.
Qed.

(** *** An id that is not a number *)

Lemma num_max_NaN (l : list JSValue) :
  fold_left (fun acc x => num_max acc (ToNumber StringToNumber x)) l NaN = NaN.
Proof. induction l as [ | x r IH ]; [ reflexivity | exact IH ]. Qed.

Lemma Math_max_NaN (l : list JSValue) (a : JSNumber) :
  In JUndefined l ->
  fold_left (fun acc x => num_max acc (ToNumber StringToNumber x)) l a = NaN.
Proof.
  revert a. induction l as [ | x r IH ]; intros a; [ intros [] | ].
  intros [-> | Hin]; cbn [fold_left].
  - cbn [ToNumber]. replace (num_max a NaN) with NaN by now destruct a as [ | | [ | ] ].
    apply num_max_NaN.
  - now apply IH.
Qed.

Lemma ids_of_objects_are_props (jobs : list JSValue) :
  forallb is_object jobs = true ->
  map_result (fun job => get_prop job "id") jobs
  = inr (map (fun job => prop_of job "id") jobs).
Proof.
  induction jobs as [ | job r IH ]; [ reflexivity | ].
  cbn [forallb]. intros [Hjob Hr]%andb_prop.
  cbn [map_result map]. rewrite (IH Hr).
  destruct job; try discriminate. reflexivity.
Qed.


(** *** The routes that read *)

Lemma filter_result_nil (f : JSValue -> Result bool) : filter_result f [] = inr [].
Proof. reflexivity. Qed.

(** X11: GET /api/jobs makes one GET and nothing else, and it does not
    report a backend failure: when the GET is not answered with a well-formed
    JSON text (the call fails, the file is missing, the content does not
    parse) the answer is status 200 with an empty list, with or without a
    [userId] parameter. *)
Theorem X11_get_jobs_hides_failures (req : Request) (w : World) :
  snd (get_jobs_route blob_sha req w) = snd (github_get blob_sha w)
  /\ ((forall j sha, fst (github_get blob_sha w) <> inr (WellFormed j, sha)) ->
      fst (get_jobs_route blob_sha req w) = inr (respond 200 (JArr []))).
Proof.
  unfold get_jobs_route, get_jobs, try_catch.
  rewrite (bind_inr _ (readJobs_run blob_sha w)). cbv beta.
  split.
  - destruct (truthy (field "userId" (req_query req))); [ | reflexivity ].
    unfold bind, lift.
    now destruct (array_filter _ _).
  - intros Hbad.
    assert (Hjobs : jobs_read (fst (github_get blob_sha w)) = JArr []).
    { destruct (fst (github_get blob_sha w)) as [e | [[j | raw] sha]];
        try reflexivity. now destruct (Hbad j sha). }
    rewrite Hjobs.
    destruct (truthy (field "userId" (req_query req))); reflexivity.
Qed.

Lemma of_json_not_array (j : Json) :
  (forall l, j <> JsonArr l) -> forall l, of_json j <> JArr l.
Proof. intros Hj l. destruct j; try discriminate. now destruct (Hj items). Qed.

(** X12: when data/jobs.json holds well-formed JSON that is not an array,
    GET /api/jobs without [userId] answers 200 with that value as it is,
    and with a [userId] it answers 500. *)
Theorem X12_get_jobs_not_an_array (req : Request) (w : World) (j : Json) (sha : Sha) :
  fst (github_get blob_sha w) = inr (WellFormed j, sha) ->
  (forall l, j <> JsonArr l) ->
  fst (get_jobs_route blob_sha req w)
  = inr (if truthy (field "userId" (req_query req))
         then respond 500 (JObj [("error", JStr "Failed to fetch jobs")])
         else respond 200 (of_json j)).
Proof.
  intros Hget Hj.
  unfold get_jobs_route, get_jobs, try_catch.
  rewrite (bind_inr _ (readJobs_run blob_sha w)). cbv beta.
  rewrite Hget. cbn [jobs_read].
  destruct (truthy (field "userId" (req_query req))); [ | reflexivity ].
  unfold bind, lift.
  pose proof (of_json_not_array Hj) as Hv.
  destruct (of_json j) as [ | | | | | l | ]; try reflexivity.
  now destruct (Hv l).
Qed.

(** X13: what [updateGithubJobs] wrote is what [readJobsFromGithub] reads
    next (when that read is answered and no other client has committed): the
    jobs as [JSON.stringify] writes them, and the jobs themselves when they
    came from a read. *)
Theorem X13_read_after_update (l : list JSValue) (w : World) (v : JSValue) (w' : World) :
  updateGithubJobs blob_sha (JArr l) w = (inr v, w') ->
  fault (next_tick w') = None ->
  others (next_tick w') = None ->
  fst (readJobsFromGithub blob_sha w')
  = inr (JArr (map of_json (map json_element l)))
  /\ (forall old, l = map of_json old ->
        fst (readJobsFromGithub blob_sha w') = inr (JArr l)).
Proof.
  intros Hupdate Hfault Hothers.
  pose proof (updateGithubJobs_array blob_sha l w) as H. cbv zeta in H.
  rewrite Hupdate in H.
  destruct (fst (github_get blob_sha w)) as [e | [current sha]]; [ discriminate | ].
  set (w1 := snd (github_get blob_sha w)) in *.
  set (content := WellFormed (JsonArr (map json_element l))) in *.
  destruct (fst (github_put blob_sha content sha w1)) as [e | u] eqn:Hput;
    [ discriminate | ].
  apply (f_equal snd) in H. cbn [snd] in H.
  assert (Hfile : w_file w' = Some content).
  { rewrite H. unfold github_put in Hput |- *. cbn [fst snd] in Hput |- *.
    change (w_file (log_event ?ev (set_github ?f ?t ?x))) with f.
    now destruct (put_outcome_accepted blob_sha _ _ _ _ Hput) as (-> & _). }
  assert (Hread : fst (readJobsFromGithub blob_sha w')
                  = inr (JArr (map of_json (map json_element l)))).
  { rewrite readJobs_run. cbn [fst]. unfold github_get. cbn [fst].
    unfold after_others, get_reply. rewrite Hfault, Hothers, Hfile. reflexivity. }
  split; [ exact Hread | ].
  intros old ->. rewrite Hread. now rewrite json_elements_of_json.
Qed.

Lemma find_result_objects (id : string) (jobs : list JSValue) :
  forallb is_object jobs = true ->
  find_result (has_id parseInt id) jobs
  = inr (match find (fun job => strict_equal_number (prop_of job "id") (parseInt id)) jobs with
         | Some job => job
         | None => JUndefined
         end).
Proof.
  induction jobs as [ | job r IH ]; [ reflexivity | ].
  cbn [forallb]. intros [Hjob Hr]%andb_prop.
  cbn [find_result find]. destruct job; try discriminate.
  unfold has_id at 1. cbn [get_prop prop_of]. fold (field "id" props).
  destruct (strict_equal_number (field "id" props) (parseInt id)); [ reflexivity | ].
  exact (IH Hr).
Qed.

Lemma strict_equal_number_true (v : JSValue) (n : JSNumber) :
  strict_equal_number v n = true -> v = JNum n.
Proof.
  destruct v as [ | | | [a | | s] | | | ], n as [c | | t]; cbn; try discriminate.
  - now intros ->%Z.eqb_eq.
  - now intros ->%Bool.eqb_prop.
Qed.

Lemma get_job_answer (id : string) (w : World) (jobs : list JSValue) :
  fst (readJobsFromGithub blob_sha w) = inr (JArr jobs) ->
  forallb is_object jobs = true ->
  fst (get_job blob_sha parseInt id w)
  = inr (match find (fun job => strict_equal_number (prop_of job "id") (parseInt id)) jobs with
         | Some job => respond 200 job
         | None => respond 404 (JObj [("error", JStr "Job not found")])
         end).
Proof.
  intros Hread Hjobs.
  unfold get_job, try_catch.
  destruct (readJobsFromGithub blob_sha w) as [r w1] eqn:Hr.
  cbn [fst] in Hread. subst r.
  rewrite (bind_inr _ Hr). cbv beta.
  unfold bind, lift, array_find. rewrite (find_result_objects id _ Hjobs).
  destruct (find _ jobs) as [job | ] eqn:Hfind; [ | reflexivity ].
  apply find_some in Hfind. destruct Hfind as (Hin & _).
  rewrite forallb_forall in Hjobs. specialize (Hjobs _ Hin).
  destruct job; try discriminate. reflexivity.
Qed.

(** X14: when the jobs read are Records, GET /api/jobs/:id answers 200 with
    the first Record whose [id] is a number equal to [parseInt] of the
    parameter, and 404 when there is none; a Record whose [id] is not a number
    (a string of digits, say) is never found, and a parameter that does not
    parse finds nothing. *)
Theorem X14_get_job_finds_first (id : string) (w : World) (jobs : list JSValue) :
  fst (readJobsFromGithub blob_sha w) = inr (JArr jobs) ->
  forallb is_object jobs = true ->
  fst (get_job blob_sha parseInt id w)
  = inr (match find (fun job => strict_equal_number (prop_of job "id") (parseInt id)) jobs with
         | Some job => respond 200 job
         | None => respond 404 (JObj [("error", JStr "Job not found")])
         end)
  /\ (forall job, fst (get_job blob_sha parseInt id w) = inr (respond 200 job) ->
        In job jobs /\ prop_of job "id" = JNum (parseInt id))
  /\ (parseInt id = NaN ->
      fst (get_job blob_sha parseInt id w)
      = inr (respond 404 (JObj [("error", JStr "Job not found")]))).
Proof.
  intros Hread Hjobs.
  pose proof (get_job_answer id w Hread Hjobs) as Hrun.
  split; [ exact Hrun | ]. split.
  - intros job. rewrite Hrun.
    destruct (find _ jobs) as [job' | ] eqn:Hfind; [ | discriminate ].
    intros [= <-]. apply find_some in Hfind. destruct Hfind as (Hin & Heq).
    split; [ exact Hin | now apply strict_equal_number_true ].
  - intros Hnan. rewrite Hrun.
    destruct (find _ jobs) as [job' | ] eqn:Hfind; [ | reflexivity ].
    apply find_some in Hfind. destruct Hfind as (_ & Heq).
    rewrite Hnan in Heq. now destruct (prop_of job' "id") as [ | | | [ | | ] | | | ].
Qed.

Lemma find_after (A : Type) (f : A -> bool) (l l' : list A) :
  find f l = None -> find f (l ++ l') = find f l'.
Proof.
  induction l as [ | x r IH ]; [ reflexivity | ].
  cbn [find app]. destruct (f x); [ discriminate | exact IH ].
Qed.

Lemma find_none_below (jobs : list JSValue) (ids : list Z) (n : Z) :
  map integer_id jobs = map Some ids ->
  Forall (fun i => i <> n) ids ->
  find (fun job => strict_equal_number (prop_of job "id") (Fin n)) jobs = None.
Proof.
  revert ids. induction jobs as [ | job r IH ]; intros [ | z ids ]; try discriminate.
  - reflexivity.
  - cbn [map]. intros [= Hjob Hr] Hall. inversion Hall as [ | ? ? Hz Hrest ]; subst.
    cbn [find]. unfold integer_id in Hjob.
    destruct (prop_of job "id") as [ | | | [a | | ] | | | ]; try discriminate.
    injection Hjob as ->. cbn [strict_equal_number].
    destruct (z =? n) eqn:E; [ apply Z.eqb_eq in E; contradiction | ].
    now apply IH with (ids := ids).
Qed.

(** X15: a Record appended with an integer id that no earlier Record has is
    the one GET /api/jobs/:id answers with for that id. *)
Theorem X15_get_job_finds_the_new_record (id : string) (w : World)
    (jobs : list JSValue) (ids : list Z) (job : JSValue) (n : Z) :
  fst (readJobsFromGithub blob_sha w) = inr (JArr (jobs ++ [job])) ->
  map integer_id jobs = map Some ids ->
  integer_id job = Some n ->
  Forall (fun i => i <> n) ids ->
  parseInt id = Fin n ->
  fst (get_job blob_sha parseInt id w) = inr (respond 200 job).
Proof.
  intros Hread Hids Hjob Hfresh Hparse.
  assert (Hobjects : forallb is_object (jobs ++ [job]) = true).
  { rewrite forallb_app. apply andb_true_intro. split.
    - apply forallb_forall. intros x Hx.
      assert (Hsome : exists z, integer_id x = Some z).
      { apply (in_map integer_id) in Hx. rewrite Hids in Hx.
        apply in_map_iff in Hx. destruct Hx as (z & <- & _). now exists z. }
      destruct Hsome as (z & Hz). unfold integer_id, prop_of in Hz.
      now destruct x.
    - cbn [forallb]. unfold integer_id, prop_of in Hjob. now destruct job. }
  rewrite (get_job_answer id w Hread Hobjects).
  rewrite Hparse, (find_after _ _ _ (find_none_below _ Hids Hfresh)). cbn [find].
  unfold integer_id in Hjob.
  destruct (prop_of job "id") as [ | | | [a | | ] | | | ]; try discriminate.
  injection Hjob as ->. cbn [strict_equal_number]. now rewrite Z.eqb_refl.
Qed.

(** X5: GET /api/public/jobs always answers 200, with whatever
    [readJobsFromGithub] returns (the empty list when the backend fails); it
    is GET /api/jobs without a [userId]. *)
Theorem X5_public_jobs (w : World) :
  public_jobs blob_sha w
  = (inr (respond 200 (jobs_read (fst (github_get blob_sha w)))),
     snd (github_get blob_sha w))
  /\ forall req,
       truthy (field "userId" (req_query req)) = false ->
       get_jobs_route blob_sha req w = public_jobs blob_sha w.
Proof.
  assert (Hpublic : public_jobs blob_sha w
                    = (inr (respond 200 (jobs_read (fst (github_get blob_sha w)))),
                       snd (github_get blob_sha w))).
  { unfold public_jobs, try_catch.
    now rewrite (bind_inr _ (readJobs_run blob_sha w)). }
  split; [ exact Hpublic | ].
  intros req Hnone. rewrite Hpublic.
  unfold get_jobs_route, get_jobs, try_catch.
  rewrite (bind_inr _ (readJobs_run blob_sha w)). cbv beta.
  now rewrite Hnone.
Qed.

End MoreTheory.

(** ** Properties of the handlers that relay requests *)

Section CallbackTheory.

Variable GITHUB_CLIENT_ID GITHUB_CLIENT_SECRET GITHUB_CALLBACK_URL : JSValue.
Variable jwt_sign : JSValue -> string.

Local Notation "'callback'" :=
  (auth_github_callback GITHUB_CLIENT_ID GITHUB_CLIENT_SECRET GITHUB_CALLBACK_URL jwt_sign).

(** The request that exchanges the code. *)
Local Notation "'exchange' req" :=
  (HttpPost "https://github.com/login/oauth/access_token"
     (JObj [("client_id", GITHUB_CLIENT_ID);
            ("client_secret", GITHUB_CLIENT_SECRET);
            ("code", field "code" (req_body req));
            ("redirect_uri", GITHUB_CALLBACK_URL)])
     [("Accept", "application/json"%string)])
  (at level 10, req at level 9).

(** X16: POST /auth/github/callback asks GitHub for the user with whatever
    [access_token] the exchange returned, without looking at it: when the
    answer of the exchange has no such property the request is still made,
    with the header "Bearer undefined".  When the exchange itself fails no
    second request is made. *)
Theorem X16_callback_requests (req : Request) (rest : list (Result JSValue))
    (clock : list string) :
  (forall props,
     snd (run (callback req) (inr (JObj props) :: rest) clock)
     = [exchange req;
        HttpGet "https://api.github.com/user"
          [("Authorization",
            "Bearer " ++ js_String (field "access_token" props))%string]])
  /\ (forall props,
        assoc "access_token" props = None ->
        snd (run (callback req) (inr (JObj props) :: rest) clock)
        = [exchange req;
           HttpGet "https://api.github.com/user"
             [("Authorization", "Bearer undefined"%string)]])
  /\ (forall e,
        snd (run (callback req) (inl e :: rest) clock) = [exchange req]).
Proof.
  assert (H : forall props,
             snd (run (callback req) (inr (JObj props) :: rest) clock)
             = [exchange req;
                HttpGet "https://api.github.com/user"
                  [("Authorization",
                    "Bearer " ++ js_String (field "access_token" props))%string]]).
  { intros props. unfold auth_github_callback.
    cbn [pcatch pbind await plift run hd tl fst snd get_prop].
    fold (field "access_token" props).
    destruct (hd (inl NetworkError) rest) as [e | [ | | | | | | ]]; reflexivity. }
  split; [ exact H | ]. split.
  - intros props Hnone. rewrite H. unfold field. now rewrite Hnone.
  - intros e. reflexivity.
Qed.

(** X17: POST /auth/github/callback answers 200 only when both requests were
    answered; every failure, of either request or while reading the answers,
    gives status 500 with the fixed body [{error: 'Authentication failed'}].
    On success the user has GitHub's id, login and email, the name GitHub
    gives or else the login, and the token signs the id and the login. *)
Theorem X17_callback_answers (req : Request) (replies : list (Result JSValue))
    (clock : list string) :
  (exists resp,
     fst (run (callback req) replies clock) = inr resp
     /\ (resp = respond 500 (JObj [("error", JStr "Authentication failed")])
         \/ (res_status resp = 200
             /\ exists tokenData userData rest,
                  replies = inr tokenData :: inr userData :: rest)))
  /\ (forall tokenProps userProps rest,
        replies = inr (JObj tokenProps) :: inr (JObj userProps) :: rest ->
        fst (run (callback req) replies clock)
        = inr (respond 200
                 (JObj [("user",
                         JObj [("id", field "id" userProps);
                               ("username", field "login" userProps);
                               ("name", js_or (field "name" userProps)
                                          (field "login" userProps));
                               ("email", field "email" userProps)]);
                        ("token",
                         JStr (jwt_sign
                                 (JObj [("userId", field "id" userProps);
                                        ("username", field "login" userProps)])))]))).
Proof.
  split.
  - unfold auth_github_callback.
    destruct replies as [ | [e | tokenData] replies1 ];
      try (eexists; split; [ reflexivity | now left ]).
    cbn [pcatch pbind await plift run hd tl fst snd].
    destruct (get_prop tokenData "access_token") as [e | accessToken];
      [ eexists; split; [ reflexivity | now left ] | ].
    cbn [pcatch pbind await plift run hd tl fst snd].
    destruct replies1 as [ | [e | userData] rest ];
      try (eexists; split; [ reflexivity | now left ]).
    cbn [pcatch pbind await plift run hd tl fst snd].
    destruct userData;
      try (eexists; split; [ reflexivity | now left ]);
      (eexists; split; [ reflexivity | ]; right; split; [ reflexivity | ];
       now eexists _, _, _).
  - intros tokenProps userProps rest ->. reflexivity.
Qed.

End CallbackTheory.

Section TrackerTheory.

Variable GITHUB_CLIENT_ID GITHUB_CLIENT_SECRET GITHUB_TOKEN : string.

Local Notation "'auth_github' dev" :=
  (tracker_auth_github GITHUB_CLIENT_ID GITHUB_CLIENT_SECRET dev)
  (at level 10, dev at level 9).
Local Notation "'get_issues' dev" := (tracker_get_issues GITHUB_TOKEN dev)
  (at level 10, dev at level 9).
Local Notation "'post_issues' dev" := (tracker_post_issues GITHUB_TOKEN dev)
  (at level 10, dev at level 9).

Lemma map_result_objects (f : JSValue -> Result JSValue) (g : JSValue -> JSValue)
    (l : list JSValue) :
  (forall x, In x l -> f x = inr (g x)) ->
  map_result f l = inr (map g l).
Proof.
  induction l as [ | x r IH ]; intros H; [ reflexivity | ].
  cbn [map_result map]. rewrite (H x (or_introl eq_refl)).
  rewrite IH by (intros y Hy; apply H; now right). reflexivity.
Qed.

Lemma map_result_fails (f : JSValue -> Result JSValue) (l : list JSValue)
    (x : JSValue) (e : JSError) :
  In x l -> f x = inl e -> exists e', map_result f l = inl e'.
Proof.
  induction l as [ | y r IH ]; intros Hin Hx; [ destruct Hin | ].
  cbn [map_result]. destruct Hin as [-> | Hin].
  - rewrite Hx. now exists e.
  - destruct (f y) as [e1 | v]; [ now exists e1 | ].
    destruct (IH Hin Hx) as [e' ->]. now exists e'.
Qed.

Lemma error_status_other (e : JSError) :
  (forall s, e <> HttpError s) -> error_status e = 500.
Proof.
  intros H. destruct e; try reflexivity. now destruct (H status).
Qed.

(** X18: POST /api/auth/github of the second tracker makes no request
    without a code (status 400), and answers 200 only with a truthy
    [access_token] of GitHub's answer, passing on that and [token_type] and
    nothing else of the answer.  An answer without a truthy [access_token]
    gives status 500. *)
Theorem X18_tracker_auth_forwards (dev : bool) (req : Request)
    (replies : list (Result JSValue)) (clock : list string) :
  (truthy (field "code" (req_body req)) = false ->
   run (auth_github dev req) replies clock
   = (inr (respond 400 (JObj [("message", JStr "Authorization code is required")])),
      []))
  /\ (forall resp,
        fst (run (auth_github dev req) replies clock) = inr resp ->
        res_status resp = 200 ->
        exists data access_token token_type,
          hd (inl NetworkError) replies = inr data
          /\ get_prop data "access_token" = inr access_token
          /\ truthy access_token = true
          /\ res_body resp = JObj [("access_token", access_token);
                                   ("token_type", token_type)])
  /\ (forall props rest,
        truthy (field "code" (req_body req)) = true ->
        replies = inr (JObj props) :: rest ->
        truthy (field "access_token" props) = false ->
        exists body,
          fst (run (auth_github dev req) replies clock) = inr (respond 500 body)).
Proof.
  unfold tracker_auth_github. split; [ | split ].
  - intros ->. reflexivity.
  - intros resp. destruct (truthy (field "code" (req_body req)));
      cbn [negb]; [ | intros [= <-]; discriminate ].
    cbn [pcatch pbind await plift run hd tl fst snd].
    destruct (hd (inl NetworkError) replies) as [e | data];
      [ intros [= <-]; discriminate | ].
    cbn [pcatch pbind await plift run hd tl fst snd].
    destruct (get_prop data "access_token") as [e | access_token] eqn:Ha;
      [ intros [= <-]; discriminate | ].
    cbn [pcatch pbind await plift run hd tl fst snd].
    destruct (truthy access_token) eqn:Ht; cbn [negb];
      [ | intros [= <-]; discriminate ].
    destruct (get_prop data "token_type") as [e | token_type];
      [ intros [= <-]; discriminate | ].
    intros [= <-] _. now exists data, access_token, token_type.
  - intros props rest -> -> Hfalse.
    cbn [negb pcatch pbind await plift run hd tl fst snd get_prop].
    fold (field "access_token" props). rewrite Hfalse.
    cbn [negb pcatch pbind await plift run hd tl fst snd]. now eexists.
Qed.

(** X19: outside development the three routes of the second tracker never
    show the text of an error: the [error] property of a response is absent
    or the fixed text 'Internal server error'. *)
Theorem X19_production_hides_errors (req : Request)
    (replies : list (Result JSValue)) (clock : list string) (resp : Response) :
  fst (run (auth_github false req) replies clock) = inr resp
  \/ fst (run (get_issues false req) replies clock) = inr resp
  \/ fst (run (post_issues false req) replies clock) = inr resp ->
  prop_of (res_body resp) "error" = JUndefined
  \/ prop_of (res_body resp) "error" = JStr "Internal server error".
Proof.
  intros [H | [H | H]]; revert H.
  - unfold tracker_auth_github.
    destruct (truthy (field "code" (req_body req)));
      cbn [negb]; [ | intros [= <-]; now left ].
    cbn [pcatch pbind await plift run hd tl fst snd].
    destruct (hd (inl NetworkError) replies) as [e | data];
      [ intros [= <-]; now right | ].
    cbn [pcatch pbind await plift run hd tl fst snd].
    destruct (get_prop data "access_token") as [e | access_token];
      [ intros [= <-]; now right | ].
    cbn [pcatch pbind await plift run hd tl fst snd].
    destruct (truthy access_token); cbn [negb];
      [ | intros [= <-]; now right ].
    destruct (get_prop data "token_type") as [e | token_type];
      intros [= <-]; [ now right | now left ].
  - unfold tracker_get_issues.
    destruct (negb (truthy (field "owner" (req_query req)))
              || negb (truthy (field "repo" (req_query req))))%bool;
      [ intros [= <-]; now left | ].
    cbn [pcatch pbind await plift run hd tl fst snd].
    destruct (hd (inl NetworkError) replies) as [e | data];
      [ intros [= <-]; now right | ].
    cbn [pcatch pbind await plift run hd tl fst snd].
    destruct (data_map data sanitize) as [e | sanitizedIssues];
      intros [= <-]; [ now right | now left ].
  - unfold tracker_post_issues.
    destruct (negb (List.length (missingFields (req_body req)) =? 0)%nat);
      [ intros [= <-]; now left | ].
    cbn [pcatch pbind await plift run hd tl fst snd now].
    destruct (hd (inl NetworkError) replies) as [e | data];
      [ intros [= <-]; now right | ].
    cbn [pcatch pbind await plift run hd tl fst snd].
    destruct (pick data _) as [e | picked];
      intros [= <-]; [ now right | now left ].
Qed.

(** The properties of an issue that GET /api/github/issues passes on. *)
Local Notation "'kept' issue" :=
  (JObj [("id", prop_of issue "id"); ("number", prop_of issue "number");
         ("title", prop_of issue "title"); ("body", prop_of issue "body");
         ("html_url", prop_of issue "html_url");
         ("created_at", prop_of issue "created_at");
         ("updated_at", prop_of issue "updated_at");
         ("state", prop_of issue "state")])
  (at level 10, issue at level 9).





End TrackerTheory.

Section FirstTrackerTheory.

Variable GITHUB_CLIENT_ID GITHUB_CLIENT_SECRET : JSValue.

Local Notation "'auth_github'" :=
  (first_auth_github GITHUB_CLIENT_ID GITHUB_CLIENT_SECRET).

(** X24: the first tracker's routes for issues send every request to one
    fixed address and with one fixed Authorization header, the texts
    [${owner}], [${repo}] and [${GITHUB_TOKEN}] left as written: neither the
    owner and the repository asked for nor the server's token reach
    GitHub. *)
Theorem X24_first_tracker_fixed_request (req : Request)
    (replies : list (Result JSValue)) (clock : list string) :
  (truthy (field "owner" (req_query req)) = true ->
   truthy (field "repo" (req_query req)) = true ->
   snd (run (first_get_issues req) replies clock)
   = [HttpGet "https://api.github.com/repos/${owner}/${repo}/issues"
        [("Accept", "application/vnd.github.v3+json"%string);
         ("User-Agent", "YourAppName"%string);
         ("Authorization", "token ${GITHUB_TOKEN}"%string)]])
  /\ (truthy (field "owner" (req_body req)) = true ->
      truthy (field "repo" (req_body req)) = true ->
      truthy (field "title" (req_body req)) = true ->
      truthy (field "body" (req_body req)) = true ->
      snd (run (first_post_issues req) replies clock)
      = [HttpPost "https://api.github.com/repos/${owner}/${repo}/issues"
           (JObj [("title", field "title" (req_body req));
                  ("body", field "body" (req_body req))])
           [("Authorization", "token ${GITHUB_TOKEN}"%string);
            ("Accept", "application/vnd.github.v3+json"%string);
            ("User-Agent", "YourAppName"%string)]]).
Proof.
  split.
  - intros Ho Hr. unfold first_get_issues. rewrite Ho, Hr.
    cbn [negb orb pcatch pbind await plift run hd tl fst snd].
    destruct (hd (inl NetworkError) replies); reflexivity.
  - intros Ho Hr Ht Hb. unfold first_post_issues. rewrite Ho, Hr, Ht, Hb.
    cbn [negb orb pcatch pbind await plift run hd tl fst snd].
    destruct (hd (inl NetworkError) replies); reflexivity.
Qed.

(** What a handler of the first tracker may do with the answer of its
    request. *)
Local Notation "'relays' out replies" :=
  (match out with
   | inr (Sent resp) =>
       res_status resp = 400
       \/ (res_status resp = 200
           /\ hd (inl NetworkError) replies = inr (res_body resp))
   | inr (Next error) => hd (inl NetworkError) replies = inl error
   | inl _ => False
   end)
  (at level 10, out at level 9, replies at level 9).


End FirstTrackerTheory.

(** ** The further properties at work on sample runs *)

Lemma X1_authenticateToken_gate_witness :
  authenticateToken Sample.jwt Sample.post More.pass Sample.w_quiet
  = (inr (respond 200 Sample.user), Sample.w_quiet).
Proof.
  apply (proj1 (@X1_authenticateToken_gate Sample.jwt Sample.post More.pass
                  Sample.w_quiet) Sample.user).
  exists "signed"%string. repeat split.
Defined.

Lemma X2_scrape_needs_http_url_witness :
  scrapeAndSummarizeCareerPage (JStr "ftp://example.org") More.w_page
  = (inr JNull, More.w_page).
Proof.
  apply X2_scrape_needs_http_url.
  intros s [= <-]. reflexivity.
Defined.

Lemma X3_scrape_prompt_bounded_witness :
  (String.length More.page <= 5000)%nat
  /\ exists page,
       hd (inl NetworkError) (w_pages More.w_page) = inr page
       /\ (50 <= String.length page)%nat
       /\ More.page = substring 0 5000 page.
Proof.
  apply (@X3_scrape_prompt_bounded (JStr Sample.careers) More.w_page
           [EvPageGet Sample.careers (inr More.page);
            EvGenerate (SummaryPrompt More.page) (inr "A bakery."%string)]
           More.page (inr "A bakery."%string)).
  - reflexivity.
  - right. left. reflexivity.
Defined.

Lemma X6_post_cannot_create_the_file_witness :
  res_status (Sample.answer (Sample.run_post More.w_missing)) <> 201
  /\ w_file (snd (Sample.run_post More.w_missing)) = None
  /\ filter is_put (skipn (List.length (w_log More.w_missing))
                      (w_log (snd (Sample.run_post More.w_missing)))) = [].
Proof.
  apply (@X6_post_cannot_create_the_file Sample.sha Sample.jwt Sample.number
           Sample.post More.w_missing).
  - vm_compute. reflexivity.
  - reflexivity.
  - reflexivity.
  - reflexivity.
Defined.

Lemma X7_failed_post_leaves_the_file_witness :
  w_file (snd (Sample.run_post More.w_put_fails)) = w_file More.w_put_fails.
Proof.
  apply (@X7_failed_post_leaves_the_file Sample.sha Sample.jwt Sample.number
           Sample.post More.w_put_fails
           (Sample.answer (Sample.run_post More.w_put_fails))).
  - vm_compute. reflexivity.
  - intros [ | [ | [ | n ] ] ] H; [ reflexivity .. | lia ].
  - vm_compute. discriminate.
Defined.

Lemma X8_attribution_defaults_witness :
  exists newJob,
    res_body (Sample.answer (Sample.run_post Sample.w_quiet)) = created newJob
    /\ prop_of newJob "userId" = JNum (Fin 7)
    /\ prop_of newJob "createdBy" = JStr "ann".
Proof.
  apply (@X8_attribution_defaults Sample.sha Sample.jwt Sample.number Sample.post
           Sample.user Sample.w_quiet
           (Sample.answer (Sample.run_post Sample.w_quiet))
           (snd (Sample.run_post Sample.w_quiet))).
  - vm_compute. reflexivity.
  - reflexivity.
  - exists "signed"%string. repeat split.
Defined.

Lemma X9_stored_record_fields_witness :
  json_field "location"
    (json_element
       (job_literal Sample.posting (JNum (Fin 2)) (JStr Sample.careers) JNull
          (JBool false) (JNum (Fin 7)) (JStr "ann") "t" "t"))
  = None.
Proof.
  apply (proj1 (proj2 (X9_stored_record_fields Sample.posting (JNum (Fin 2))
                         (JStr Sample.careers) JNull (JBool false) (JNum (Fin 7))
                         (JStr "ann") "t" "t")) "location"%string).
  left. reflexivity.
Defined.


Lemma X11_get_jobs_hides_failures_witness :
  fst (get_jobs_route Sample.sha
         (Sample.request None [] [("userId", JStr "42")]) Sample.w_down)
  = inr (respond 200 (JArr [])).
Proof.
  apply (proj2 (X11_get_jobs_hides_failures Sample.sha
                  (Sample.request None [] [("userId", JStr "42")]) Sample.w_down)).
  intros j sha H. vm_compute in H. discriminate.
Defined.

Lemma X12_get_jobs_not_an_array_witness :
  fst (get_jobs_route Sample.sha
         (Sample.request None [] [("userId", JStr "42")]) More.w_object)
  = inr (respond 500 (JObj [("error", JStr "Failed to fetch jobs")])).
Proof.
  apply (@X12_get_jobs_not_an_array Sample.sha
           (Sample.request None [] [("userId", JStr "42")]) More.w_object
           Sample.record1 (Sample.sha (WellFormed Sample.record1))).
  - reflexivity.
  - intros l H. discriminate.
Defined.

Lemma X13_read_after_update_witness :
  fst (readJobsFromGithub Sample.sha
         (snd (updateGithubJobs Sample.sha (JArr [of_json Sample.record1])
                 Sample.w_quiet)))
  = inr (JArr [of_json Sample.record1]).
Proof.
  apply (proj2 (@X13_read_after_update Sample.sha [of_json Sample.record1]
                  Sample.w_quiet (JBool true)
                  (snd (updateGithubJobs Sample.sha (JArr [of_json Sample.record1])
                          Sample.w_quiet))
                  ltac:(vm_compute; reflexivity) eq_refl eq_refl)
           [Sample.record1]).
  reflexivity.
Defined.

Lemma X14_get_job_finds_first_witness :
  fst (get_job Sample.sha More.parse "2" More.w_two)
  = inr (respond 200 (of_json Sample.record2)).
Proof.
  exact (proj1 (@X14_get_job_finds_first Sample.sha More.parse "2" More.w_two
                  [of_json Sample.record1; of_json Sample.record2]
                  eq_refl eq_refl)).
Defined.

Lemma X15_get_job_finds_the_new_record_witness :
  fst (get_job Sample.sha More.parse "2" More.w_two)
  = inr (respond 200 (of_json Sample.record2)).
Proof.
  apply (@X15_get_job_finds_the_new_record Sample.sha More.parse "2" More.w_two
           [of_json Sample.record1] [1] (of_json Sample.record2) 2).
  - reflexivity.
  - reflexivity.
  - reflexivity.
  - repeat constructor. discriminate.
  - reflexivity.
Defined.

Lemma X5_public_jobs_witness :
  get_jobs_route Sample.sha (Sample.request None [] []) More.w_two
  = public_jobs Sample.sha More.w_two.
Proof.
  apply (proj2 (X5_public_jobs Sample.sha More.w_two)).
  reflexivity.
Defined.

Lemma X16_callback_requests_witness :
  snd (run (auth_github_callback (JStr "id") (JStr "secret") (JStr "https://app/cb")
              More.sign More.code)
         [inr (JObj [("error", JStr "bad_verification_code")])] [])
  = [HttpPost "https://github.com/login/oauth/access_token"
       (JObj [("client_id", JStr "id"); ("client_secret", JStr "secret");
              ("code", JStr "c0de"); ("redirect_uri", JStr "https://app/cb")])
       [("Accept", "application/json"%string)];
     HttpGet "https://api.github.com/user"
       [("Authorization", "Bearer undefined"%string)]].
Proof.
  apply (proj1 (proj2 (X16_callback_requests (JStr "id") (JStr "secret")
                         (JStr "https://app/cb") More.sign More.code [] []))).
  reflexivity.
Defined.

Lemma X17_callback_answers_witness :
  fst (run (auth_github_callback (JStr "id") (JStr "secret") (JStr "https://app/cb")
              More.sign More.code)
         [inr (JObj [("access_token", JStr "gho")]);
          inr (JObj [("id", JNum (Fin 7)); ("login", JStr "ann")])] [])
  = inr (respond 200
           (JObj [("user",
                   JObj [("id", JNum (Fin 7)); ("username", JStr "ann");
                         ("name", JStr "ann"); ("email", JUndefined)]);
                  ("token", JStr "signed")])).
Proof.
  apply (proj2 (X17_callback_answers (JStr "id") (JStr "secret")
                  (JStr "https://app/cb") More.sign More.code
                  [inr (JObj [("access_token", JStr "gho")]);
                   inr (JObj [("id", JNum (Fin 7)); ("login", JStr "ann")])] [])
           [("access_token", JStr "gho")]
           [("id", JNum (Fin 7)); ("login", JStr "ann")] []).
  reflexivity.
Defined.

Lemma X18_tracker_auth_forwards_witness :
  exists body,
    fst (run (tracker_auth_github "id" "secret" false More.code)
           [inr (JObj [("error", JStr "bad_verification_code")])] [])
    = inr (respond 500 body).
Proof.
  apply (proj2 (proj2 (X18_tracker_auth_forwards "id" "secret" false More.code
                         [inr (JObj [("error", JStr "bad_verification_code")])] []))
           [("error", JStr "bad_verification_code")] []).
  - reflexivity.
  - reflexivity.
  - reflexivity.
Defined.

Lemma X19_production_hides_errors_witness :
  prop_of (JObj [("message", JStr "Failed to fetch issues");
                 ("error", JStr "Internal server error")]) "error" = JUndefined
  \/ prop_of (JObj [("message", JStr "Failed to fetch issues");
                    ("error", JStr "Internal server error")]) "error"
     = JStr "Internal server error".
Proof.
  apply (@X19_production_hides_errors "id" "secret" "token" More.repository
           [inl (HttpError 404)] []
           (respond 404 (JObj [("message", JStr "Failed to fetch issues");
                               ("error", JStr "Internal server error")]))).
  right. left. reflexivity.
Defined.





Lemma X24_first_tracker_fixed_request_witness :
  snd (run (first_get_issues More.repository) [inr (JArr [])] [])
  = [HttpGet "https://api.github.com/repos/${owner}/${repo}/issues"
       [("Accept", "application/vnd.github.v3+json"%string);
        ("User-Agent", "YourAppName"%string);
        ("Authorization", "token ${GITHUB_TOKEN}"%string)]].
Proof.
  apply (proj1 (X24_first_tracker_fixed_request More.repository [inr (JArr [])] [])).
  - reflexivity.
  - reflexivity.
Defined.
